(** * Yakit takip: storage operations and consumption statistics

    A shallow embedding of [src/yakit_takip.py], the single class
    [YakıtTakipUygulaması], restricted to the methods that touch storage or
    compute the consumption figures:

      arac_ekle, arac_sil, yakit_ekle, yakit_kaydi_sil, depo_doldur,
      bakim_kaydi_duzenle, yakit_istatistiklerini_hesapla.

    Conventions of the embedding.

    - The five SQLite tables are lists of records, in insertion order.  The
      columns [eklenme_tarihi] and [son_guncelleme] hold the wall clock and
      are read by no statement of the program; they are left out.
    - [REAL] columns and Python floats are exact rationals ([Qc]); rounding
      of binary floating point is not modelled.
    - [self.conn] is a pair of database values: the committed one and the one
      seen by the open transaction.  [commit] and [rollback] copy one onto
      the other.
    - A method is a program in a state-and-exception monad over the
      application object; [try ... except] is [dene].  Message boxes are
      appended to a log.
    - Widget contents read by a method (entry texts, the selected tree row,
      the answer to a confirmation dialog) are arguments of the method.  A
      selected tree row is given by the values the method unpacks from it,
      already typed; the conversions Tk applies to them are not modelled.
    - After its writes a method clears entries and reloads list views; these
      steps read the database only, handle their own exceptions and are
      left out.
    - Library routines whose behaviour is not part of the repository
      (Python's [int], [float], [str.strip], [str.upper],
      [datetime.strptime]; SQLite's [strftime]) are the fields of the class
      [Kutuphane]; every general statement holds for all of them. *)

From Stdlib Require Import ZArith QArith Qcanon String Ascii Lia DecimalString DecimalPos.
From stdpp Require Import base list strings numbers sorting.

Local Open Scope Z_scope.

(** ** Library interface *)

Class Kutuphane := {
  (** [int(s)]; [None] when Python raises [ValueError]. *)
  py_int : string → option Z;
  (** [float(s)]; [None] when Python raises [ValueError]. *)
  py_float : string → option Qc;
  (** [s.strip()] and [s.upper()]. *)
  py_strip : string → string;
  py_upper : string → string;
  (** [datetime.strptime(s, fmt)] returns (true) or raises [ValueError]. *)
  strptime : string → string → bool;
  (** SQL [strftime(fmt, s)]; [None] is SQL NULL. *)
  strftime : string → string → option string
}.

(** ** Tables (create_tables) *)

Record Arac := {
  arac_id : Z;
  plaka : string;
  model : string;
  mevcut_km : Z;
  model_yili : option Z;
  muayene_tarihi : string;
  bakim_tarihi : string;
  arac_surucusu : string
}.

Record YakitKaydi := {
  y_kayit_id : Z;
  y_arac_id : Z;
  y_km : Z;
  yakit_miktari : Qc;
  y_notlar : string;
  y_tarih : string
}.

Record DepoDolumu := {
  dolum_id : Z;
  d_miktar : Qc;
  d_notlar : string;
  d_tarih : string
}.

Record Depo := {
  depo_id : Z;
  mevcut_yakit : Qc
}.

Record BakimKaydi := {
  b_kayit_id : Z;
  b_arac_id : Z;
  b_tarih : string;
  saat : string;
  tespit_edilen_ariza : string;
  yapilan_islem : string;
  parca_ucreti : Qc;
  iscilik_ucreti : Qc;
  toplam_tutar : Qc;
  b_notlar : string
}.

(** [sqlite_sequence]: the largest rowid ever handed out by each
    AUTOINCREMENT table. *)
Record Sira := {
  sira_araclar : Z;
  sira_yakit : Z;
  sira_dolum : Z;
  sira_bakim : Z
}.

Record VT := {
  araclar : list Arac;
  yakit_kayitlari : list YakitKaydi;
  depo_dolumlari : list DepoDolumu;
  depo : list Depo;
  bakim_tamirat : list BakimKaydi;
  sira : Sira
}.

#[global] Instance Arac_eq_dec : EqDecision Arac.
Proof. solve_decision. Defined.
#[global] Instance YakitKaydi_eq_dec : EqDecision YakitKaydi.
Proof. solve_decision. Defined.
#[global] Instance DepoDolumu_eq_dec : EqDecision DepoDolumu.
Proof. solve_decision. Defined.
#[global] Instance Depo_eq_dec : EqDecision Depo.
Proof. solve_decision. Defined.
#[global] Instance BakimKaydi_eq_dec : EqDecision BakimKaydi.
Proof. solve_decision. Defined.
#[global] Instance Sira_eq_dec : EqDecision Sira.
Proof. solve_decision. Defined.
#[global] Instance VT_eq_dec : EqDecision VT.
Proof. solve_decision. Defined.

(** The database file right after [create_tables] and
    [initialize_database]: empty tables and the seeded depot row
    [(depo_id, mevcut_yakit) = (1, 0)]. *)
Definition bos_vt : VT := {|
  araclar := [];
  yakit_kayitlari := [];
  depo_dolumlari := [];
  depo := [ {| depo_id := 1; mevcut_yakit := 0%Qc |} ];
  bakim_tamirat := [];
  sira := {| sira_araclar := 0; sira_yakit := 0; sira_dolum := 0; sira_bakim := 0 |}
|}.

(** ** The connection and the application object *)

Record Baglanti := {
  kalici : VT;     (* what is on disk: the last committed state *)
  calisma : VT     (* what the cursor sees: committed state plus pending writes *)
}.

(** Figure shown by one of the three statistics labels. [Oran q] is a
    computed rate, printed with two decimals. *)
Inductive Etiket :=
| Cizgi        (* text "-"          : no vehicle chosen *)
| VeriYok      (* text "Veri yok"   : no data *)
| KmHatasi     (* text "KM hatası"  : odometer error *)
| Oran (q : Qc).

Record Etiketler := {
  ortalama_tuketim_label : Etiket;
  aylik_ortalama_label : Etiket;
  yillik_ortalama_label : Etiket
}.

(** Contents of the maintenance form entries. The three amounts are shown
    as [str] of the stored number. *)
Record BakimFormu := {
  bakim_tarih_entry : string;
  bakim_saat_entry : string;
  bakim_ariza_entry : string;
  bakim_islem_entry : string;
  bakim_parca_ucreti_entry : Qc;
  bakim_iscilik_ucreti_entry : Qc;
  bakim_toplam_tutar_entry : Qc;
  bakim_notlar_entry : string
}.

Inductive Istisna :=
| ValueError
| IndexError
| TypeError
| ZeroDivisionError
| IntegrityError.

(** The message boxes of the modelled methods. *)
Inductive Mesaj :=
| Basarili                       (* show_success(...) *)
| SecimYok                       (* "Lütfen ... seçin!" *)
| ZorunluAlanlar                 (* "Lütfen zorunlu alanları doldurun!" *)
| GecersizDeger                  (* "Geçersiz değer: ..." / "Geçersiz KM değeri: ..." *)
| PlakaKayitli                   (* "Bu plaka zaten kayıtlı!" *)
| AracBulunamadi                 (* "Araç bulunamadı!" *)
| KayitBulunamadi                (* "Kayıt bulunamadı!" *)
| IslemHatasi (e : Istisna).     (* "... hata: {str(e)}" *)

Record Uygulama := {
  conn : Baglanti;
  etiketler : Etiketler;
  bakim_formu : BakimFormu;
  mesajlar : list Mesaj      (* newest first *)
}.

#[global] Instance Baglanti_eq_dec : EqDecision Baglanti.
Proof. solve_decision. Defined.
#[global] Instance Etiket_eq_dec : EqDecision Etiket.
Proof. solve_decision. Defined.
#[global] Instance Etiketler_eq_dec : EqDecision Etiketler.
Proof. solve_decision. Defined.
#[global] Instance BakimFormu_eq_dec : EqDecision BakimFormu.
Proof. solve_decision. Defined.
#[global] Instance Istisna_eq_dec : EqDecision Istisna.
Proof. solve_decision. Defined.
#[global] Instance Mesaj_eq_dec : EqDecision Mesaj.
Proof. solve_decision. Defined.
#[global] Instance Uygulama_eq_dec : EqDecision Uygulama.
Proof. solve_decision. Defined.

(** ** Programs over the application object *)

Definition Prog (A : Type) : Type := Uygulama → (Istisna + A) * Uygulama.

#[global] Instance prog_ret : MRet Prog := λ A a u, (inr a, u).

#[global] Instance prog_bind : MBind Prog := λ A B f m u,
  match m u with
  | (inl e, u') => (inl e, u')
  | (inr a, u') => f a u'
  end.

Definition raise {A} (e : Istisna) : Prog A := λ u, (inl e, u).

(** [try: govde except e: yakala e] *)
Definition dene (govde : Prog unit) (yakala : Istisna → Prog unit) : Prog unit :=
  λ u,
  match govde u with
  | (inl e, u') => yakala e u'
  | (inr tt, u') => (inr tt, u')
  end.

(** A method called from the event loop: the state it leaves behind. An
    exception escaping the method leaves the state reached so far. *)
Definition calistir (p : Prog unit) (u : Uygulama) : Uygulama := (p u).2.

Definition conn_degistir (f : Baglanti → Baglanti) : Prog unit := λ u,
  (inr tt, {| conn := f (conn u); etiketler := etiketler u;
              bakim_formu := bakim_formu u; mesajlar := mesajlar u |}).

Definition etiket_degistir (f : Etiketler → Etiketler) : Prog unit := λ u,
  (inr tt, {| conn := conn u; etiketler := f (etiketler u);
              bakim_formu := bakim_formu u; mesajlar := mesajlar u |}).

Definition form_doldur (f : BakimFormu) : Prog unit := λ u,
  (inr tt, {| conn := conn u; etiketler := etiketler u;
              bakim_formu := f; mesajlar := mesajlar u |}).

Definition mesaj_goster (m : Mesaj) : Prog unit := λ u,
  (inr tt, {| conn := conn u; etiketler := etiketler u;
              bakim_formu := bakim_formu u; mesajlar := m :: mesajlar u |}).

Definition show_success : Prog unit := mesaj_goster Basarili.
Definition show_error (m : Mesaj) : Prog unit := mesaj_goster m.

(** [self.cursor.execute(stmt)] for a statement that cannot fail. *)
Definition execute (stmt : VT → VT) : Prog unit :=
  conn_degistir (λ c, {| kalici := kalici c; calisma := stmt (calisma c) |}).

(** [self.cursor.execute(stmt)] for a statement guarded by a constraint: a
    violation raises and leaves the tables as they were. *)
Definition execute_kisitli (stmt : VT → Istisna + VT) : Prog unit := λ u,
  match stmt (calisma (conn u)) with
  | inl e => (inl e, u)
  | inr vt => execute (λ _, vt) u
  end.

(** [self.cursor.execute(query)] followed by [fetchone()] / [fetchall()]. *)
Definition fetch {A} (query : VT → A) : Prog A := λ u,
  (inr (query (calisma (conn u))), u).

Definition commit : Prog unit :=
  conn_degistir (λ c, {| kalici := calisma c; calisma := calisma c |}).

Definition rollback : Prog unit :=
  conn_degistir (λ c, {| kalici := kalici c; calisma := kalici c |}).

(** ** Python helpers *)

(** [not s] for a string. *)
Definition bos (s : string) : bool := bool_decide (s = "").

(** Text after the first occurrence of ["ID:"], if there is one. *)
Fixpoint ayrac_sonrasi (s : string) : option string :=
  match s with
  | EmptyString => None
  | String "I" (String "D" (String ":" r)) => Some r
  | String _ s' => ayrac_sonrasi s'
  end.

(** Text before the first occurrence of ["ID:"] (all of it if there is none). *)
Fixpoint ayrac_oncesi (s : string) : string :=
  match s with
  | EmptyString => EmptyString
  | String "I" (String "D" (String ":" _)) => EmptyString
  | String c s' => String c (ayrac_oncesi s')
  end.

(** [s.split("ID:")[1]]; [None] is [IndexError]. *)
Definition split_ID_1 (s : string) : option string :=
  ayrac_oncesi <$> ayrac_sonrasi s.

(** [s.rstrip(")")] *)
Fixpoint rstrip_parantez (s : string) : string :=
  match s with
  | EmptyString => EmptyString
  | String c s' =>
      let r := rstrip_parantez s' in
      if bool_decide (c = ")"%char) && bos r then EmptyString else String c r
  end.

Section Program.
Context `{Kutuphane}.

(** [int(arac.split("ID:")[1].rstrip(")"))] *)
Definition arac_id_coz (arac : string) : Prog Z :=
  match split_ID_1 arac with
  | None => raise IndexError
  | Some t =>
      match py_int (rstrip_parantez t) with
      | None => raise ValueError
      | Some i => mret i
      end
  end.

(** [int(s)] and [float(s)] inside a [try]. *)
Definition int (s : string) : Prog Z :=
  match py_int s with
  | None => raise ValueError
  | Some i => mret i
  end.

Definition float (s : string) : Prog Qc :=
  match py_float s with
  | None => raise ValueError
  | Some x => mret x
  end.

(** [try: datetime.strptime(s, fmt) except ValueError: raise ValueError(...)] *)
Definition tarih_kontrol (s fmt : string) : Prog unit :=
  if strptime s fmt then mret tt else raise ValueError.

End Program.

(** ** SQL statements *)

Definition araclar_degistir (f : list Arac → list Arac) (vt : VT) : VT :=
  {| araclar := f (araclar vt); yakit_kayitlari := yakit_kayitlari vt;
     depo_dolumlari := depo_dolumlari vt; depo := depo vt;
     bakim_tamirat := bakim_tamirat vt; sira := sira vt |}.

Definition yakit_degistir (f : list YakitKaydi → list YakitKaydi) (vt : VT) : VT :=
  {| araclar := araclar vt; yakit_kayitlari := f (yakit_kayitlari vt);
     depo_dolumlari := depo_dolumlari vt; depo := depo vt;
     bakim_tamirat := bakim_tamirat vt; sira := sira vt |}.

Definition dolum_degistir (f : list DepoDolumu → list DepoDolumu) (vt : VT) : VT :=
  {| araclar := araclar vt; yakit_kayitlari := yakit_kayitlari vt;
     depo_dolumlari := f (depo_dolumlari vt); depo := depo vt;
     bakim_tamirat := bakim_tamirat vt; sira := sira vt |}.

Definition depo_degistir (f : list Depo → list Depo) (vt : VT) : VT :=
  {| araclar := araclar vt; yakit_kayitlari := yakit_kayitlari vt;
     depo_dolumlari := depo_dolumlari vt; depo := f (depo vt);
     bakim_tamirat := bakim_tamirat vt; sira := sira vt |}.

Definition bakim_degistir (f : list BakimKaydi → list BakimKaydi) (vt : VT) : VT :=
  {| araclar := araclar vt; yakit_kayitlari := yakit_kayitlari vt;
     depo_dolumlari := depo_dolumlari vt; depo := depo vt;
     bakim_tamirat := f (bakim_tamirat vt); sira := sira vt |}.

Definition sira_degistir (f : Sira → Sira) (vt : VT) : VT :=
  {| araclar := araclar vt; yakit_kayitlari := yakit_kayitlari vt;
     depo_dolumlari := depo_dolumlari vt; depo := depo vt;
     bakim_tamirat := bakim_tamirat vt; sira := f (sira vt) |}.

(** [INSERT INTO araclar (plaka, model, mevcut_km, model_yili,
    muayene_tarihi, bakim_tarihi, arac_surucusu) VALUES (?, ?, ?, ?, ?, ?, ?)]
    The column [plaka] is [UNIQUE]: a plate already in the table makes the
    statement fail with [sqlite3.IntegrityError]. *)
Definition insert_arac (p m : string) (k : Z) (my : option Z)
    (mt bt s : string) (vt : VT) : Istisna + VT :=
  if bool_decide (p ∈ plaka <$> araclar vt) then inl IntegrityError
  else
    let i := sira_araclar (sira vt) + 1 in
    inr (sira_degistir
           (λ q, {| sira_araclar := i; sira_yakit := sira_yakit q;
                    sira_dolum := sira_dolum q; sira_bakim := sira_bakim q |})
           (araclar_degistir
              (λ l, l ++ [ {| arac_id := i; plaka := p; model := m; mevcut_km := k;
                              model_yili := my; muayene_tarihi := mt;
                              bakim_tarihi := bt; arac_surucusu := s |} ])
              vt)).

(** [INSERT INTO yakit_kayitlari (arac_id, km, yakit_miktari, notlar, tarih)
    VALUES (?, ?, ?, ?, ?)]  Foreign keys are not enforced (SQLite default). *)
Definition insert_yakit (a k : Z) (v : Qc) (n t : string) (vt : VT) : VT :=
  let i := sira_yakit (sira vt) + 1 in
  sira_degistir
    (λ q, {| sira_araclar := sira_araclar q; sira_yakit := i;
             sira_dolum := sira_dolum q; sira_bakim := sira_bakim q |})
    (yakit_degistir
       (λ l, l ++ [ {| y_kayit_id := i; y_arac_id := a; y_km := k;
                       yakit_miktari := v; y_notlar := n; y_tarih := t |} ])
       vt).

(** [INSERT INTO depo_dolumlari (miktar, notlar, tarih) VALUES (?, ?, ?)] *)
Definition insert_dolum (v : Qc) (n t : string) (vt : VT) : VT :=
  let i := sira_dolum (sira vt) + 1 in
  sira_degistir
    (λ q, {| sira_araclar := sira_araclar q; sira_yakit := sira_yakit q;
             sira_dolum := i; sira_bakim := sira_bakim q |})
    (dolum_degistir
       (λ l, l ++ [ {| dolum_id := i; d_miktar := v; d_notlar := n; d_tarih := t |} ])
       vt).

Definition km_yaz (k : Z) (a : Arac) : Arac :=
  {| arac_id := arac_id a; plaka := plaka a; model := model a; mevcut_km := k;
     model_yili := model_yili a; muayene_tarihi := muayene_tarihi a;
     bakim_tarihi := bakim_tarihi a; arac_surucusu := arac_surucusu a |}.

(** [UPDATE araclar SET mevcut_km = ? WHERE arac_id = ?] *)
Definition update_mevcut_km (k a : Z) : VT → VT :=
  araclar_degistir (fmap (λ r, if decide (arac_id r = a) then km_yaz k r else r)).

(** [UPDATE depo SET mevcut_yakit = mevcut_yakit + ?, ... WHERE depo_id = 1]
    (with [d = miktar]) and its [- ?] twin (with [d = - miktar]). *)
Definition update_depo (d : Qc) : VT → VT :=
  depo_degistir
    (fmap (λ r, if decide (depo_id r = 1)
                then {| depo_id := depo_id r; mevcut_yakit := (mevcut_yakit r + d)%Qc |}
                else r)).

(** [SELECT mevcut_yakit FROM depo WHERE depo_id = 1] and [fetchone()]:
    the depot level shown by [depo_durumunu_guncelle]. *)
Definition depo_seviyesi (vt : VT) : option Qc :=
  mevcut_yakit <$> head (filter (λ r, depo_id r = 1) (depo vt)).

(** [SELECT arac_id FROM araclar WHERE plaka = ?] and [fetchone()] *)
Definition select_arac_id (p : string) (vt : VT) : option Z :=
  arac_id <$> head (filter (λ r, plaka r = p) (araclar vt)).

(** [DELETE FROM yakit_kayitlari WHERE arac_id = ? AND tarih = ? AND km = ?] *)
Definition delete_yakit_kaydi (a : Z) (t : string) (k : Z) : VT → VT :=
  yakit_degistir
    (filter (λ r, ¬ (y_arac_id r = a ∧ y_tarih r = t ∧ y_km r = k))).

(** [DELETE FROM yakit_kayitlari WHERE arac_id = ?] *)
Definition delete_yakit_arac (a : Z) : VT → VT :=
  yakit_degistir (filter (λ r, y_arac_id r ≠ a)).

(** [DELETE FROM bakim_tamirat WHERE arac_id = ?] *)
Definition delete_bakim_arac (a : Z) : VT → VT :=
  bakim_degistir (filter (λ r, b_arac_id r ≠ a)).

(** [DELETE FROM araclar WHERE arac_id = ?] *)
Definition delete_arac (a : Z) : VT → VT :=
  araclar_degistir (filter (λ r, arac_id r ≠ a)).

(** The composite [(arac_id, tarih, tespit_edilen_ariza)] by which the
    maintenance tab addresses a record. *)
Definition bakim_eslesir (a : Z) (t ar : string) (r : BakimKaydi) : Prop :=
  b_arac_id r = a ∧ b_tarih r = t ∧ tespit_edilen_ariza r = ar.

#[global] Instance bakim_eslesir_dec a t ar r : Decision (bakim_eslesir a t ar r).
Proof. unfold bakim_eslesir. apply _. Defined.

(** [SELECT tarih, saat, tespit_edilen_ariza, yapilan_islem, parca_ucreti,
    iscilik_ucreti, toplam_tutar, notlar FROM bakim_tamirat
    WHERE arac_id = ? AND tarih = ? AND tespit_edilen_ariza = ?]
    and [fetchone()] *)
Definition select_bakim_detay (a : Z) (t ar : string) (vt : VT) : option BakimKaydi :=
  head (filter (bakim_eslesir a t ar) (bakim_tamirat vt)).

(** [DELETE FROM bakim_tamirat
    WHERE arac_id = ? AND tarih = ? AND tespit_edilen_ariza = ?] *)
Definition delete_bakim_kaydi (a : Z) (t ar : string) : VT → VT :=
  bakim_degistir (filter (λ r, ¬ bakim_eslesir a t ar r)).

(** ** Queries of the statistics *)

Definition Z2Qc (z : Z) : Qc := Q2Qc (inject_Z z).

(** SQL aggregates over a column, accumulated in row order; NULL on no rows. *)
Definition sql_min (l : list Z) : option Z :=
  match l with
  | [] => None
  | x :: t => Some (foldl Z.min x t)
  end.

Definition sql_max (l : list Z) : option Z :=
  match l with
  | [] => None
  | x :: t => Some (foldl Z.max x t)
  end.

Definition sql_sum (l : list Qc) : option Qc :=
  match l with
  | [] => None
  | _ => Some (foldl Qcplus 0%Qc l)
  end.

(** [... FROM yakit_kayitlari WHERE arac_id = ?] *)
Definition arac_kayitlari (a : Z) (vt : VT) : list YakitKaydi :=
  filter (λ r, y_arac_id r = a) (yakit_kayitlari vt).

(** [SELECT MIN(km), MAX(km), SUM(yakit_miktari) FROM yakit_kayitlari
    WHERE arac_id = ?] and [fetchone()] *)
Definition genel_sorgu (a : Z) (vt : VT) : option Z * option Z * option Qc :=
  let rs := arac_kayitlari a vt in
  (sql_min (y_km <$> rs), sql_max (y_km <$> rs), sql_sum (yakit_miktari <$> rs)).

(** A row of the grouped queries. *)
Record DonemSatiri := {
  donem : option string;
  bas_km : Z;
  son_km : Z;
  yakit : Qc
}.

#[global] Instance DonemSatiri_eq_dec : EqDecision DonemSatiri.
Proof. solve_decision. Defined.

(** Ascending order of SQLite on a TEXT-or-NULL column: NULL first, then
    byte-wise. *)
Definition donem_sirasi (x y : option string) : Prop :=
  match x, y with
  | None, _ => True
  | Some _, None => False
  | Some a, Some b => Is_true (String.leb a b)
  end.

#[global] Instance donem_sirasi_dec x y : Decision (donem_sirasi x y).
Proof. destruct x, y; simpl; apply _. Defined.

Section Istatistik.
Context `{Kutuphane}.

(** The rows of a vehicle that fall in period [k] under [strftime(fmt, tarih)]. *)
Definition donem_kayitlari (fmt : string) (a : Z) (vt : VT) (k : option string)
    : list YakitKaydi :=
  filter (λ r, strftime fmt (y_tarih r) = k) (arac_kayitlari a vt).

(** One group of [GROUP BY], kept or dropped by
    [HAVING son_km > bas_km AND COUNT( * ) > 1]. *)
Definition donem_satiri (fmt : string) (a : Z) (vt : VT) (k : option string)
    : option DonemSatiri :=
  let g := donem_kayitlari fmt a vt k in
  match sql_min (y_km <$> g), sql_max (y_km <$> g), sql_sum (yakit_miktari <$> g) with
  | Some lo, Some hi, Some s =>
      if decide (lo < hi ∧ (1 < length g)%nat)
      then Some {| donem := k; bas_km := lo; son_km := hi; yakit := s |}
      else None
  | _, _, _ => None
  end.

(** [SELECT strftime(fmt, tarih) as ay, MIN(km) as bas_km, MAX(km) as son_km,
           SUM(yakit_miktari) as yakit
    FROM yakit_kayitlari WHERE arac_id = ?
    GROUP BY ay HAVING son_km > bas_km AND COUNT( * ) > 1 ORDER BY ay]
    and [fetchall()].  Rows whose period is NULL form one group. *)
Definition donem_sorgu (fmt : string) (a : Z) (vt : VT) : list DonemSatiri :=
  let donemler :=
    merge_sort donem_sirasi
      (remove_dups ((λ r, strftime fmt (y_tarih r)) <$> arac_kayitlari a vt)) in
  omap (donem_satiri fmt a vt) donemler.

(** Python [x / y] on floats. *)
Definition bol (x y : Qc) : Prog Qc :=
  if decide (y = 0%Qc) then raise ZeroDivisionError else mret (x / y)%Qc.

(** [sum((yakit/(son_km-bas_km)*100) for ay, bas_km, son_km, yakit in veriler)],
    with the running total [acc]. *)
Fixpoint oranlar_toplami (veriler : list DonemSatiri) (acc : Qc) : Prog Qc :=
  match veriler with
  | [] => mret acc
  | v :: t =>
      q ← bol (yakit v) (Z2Qc (son_km v - bas_km v));
      oranlar_toplami t (acc + q * Z2Qc 100)%Qc
  end.

(** The figure of a grouped query:
    [if veriler: Oran (sum(...) / len(veriler)) else: "Veri yok"]. *)
Definition donem_ortalamasi (veriler : list DonemSatiri) : Prog Etiket :=
  match veriler with
  | [] => mret VeriYok
  | _ =>
      t ← oranlar_toplami veriler 0%Qc;
      o ← bol t (Z2Qc (Z.of_nat (length veriler)));
      mret (Oran o)
  end.

Definition genel_yaz (e : Etiket) : Prog unit :=
  etiket_degistir (λ l, {| ortalama_tuketim_label := e;
                           aylik_ortalama_label := aylik_ortalama_label l;
                           yillik_ortalama_label := yillik_ortalama_label l |}).

Definition aylik_yaz (e : Etiket) : Prog unit :=
  etiket_degistir (λ l, {| ortalama_tuketim_label := ortalama_tuketim_label l;
                           aylik_ortalama_label := e;
                           yillik_ortalama_label := yillik_ortalama_label l |}).

Definition yillik_yaz (e : Etiket) : Prog unit :=
  etiket_degistir (λ l, {| ortalama_tuketim_label := ortalama_tuketim_label l;
                           aylik_ortalama_label := aylik_ortalama_label l;
                           yillik_ortalama_label := e |}).

(** [yakit_istatistiklerini_hesapla]; [arac] is the text of
    [rapor_arac_combobox]. *)
Definition yakit_istatistiklerini_hesapla (arac : string) : Prog unit :=
  dene
    (if bos arac || bool_decide (arac = "Tüm Araçlar") then
       etiket_degistir (λ _, {| ortalama_tuketim_label := Cizgi;
                                aylik_ortalama_label := Cizgi;
                                yillik_ortalama_label := Cizgi |})
     else
       a ← arac_id_coz arac;
       (* 1. GENEL ORTALAMA *)
       '(min_km, max_km, toplam_yakit) ← fetch (genel_sorgu a);
       match min_km, max_km with
       | Some min_km, Some max_km =>
           let toplam_km := max_km - min_km in
           if decide (0 < toplam_km) then
             t ← match toplam_yakit with
                 | Some t => mret t
                 | None => raise TypeError
                 end;
             o ← bol t (Z2Qc toplam_km);
             genel_yaz (Oran (o * Z2Qc 100)%Qc)
           else genel_yaz KmHatasi
       | _, _ => genel_yaz VeriYok
       end;;
       (* 2. AYLIK ORTALAMALAR *)
       aylik_veriler ← fetch (donem_sorgu "%m-%Y" a);
       aylik_ortalama ← donem_ortalamasi aylik_veriler;
       aylik_yaz aylik_ortalama;;
       (* 3. YILLIK ORTALAMALAR *)
       yillik_veriler ← fetch (donem_sorgu "%Y" a);
       yillik_ortalama ← donem_ortalamasi yillik_veriler;
       yillik_yaz yillik_ortalama)
    (λ e, show_error (IslemHatasi e)).

End Istatistik.

(** ** Widget contents read by the methods *)

(** Entries of the vehicle tab, as typed. *)
Record AracGirisi := {
  plaka_entry : string;
  model_entry : string;
  km_entry : string;
  model_yili_entry : string;
  muayene_tarihi_entry : string;
  bakim_tarihi_entry : string;
  arac_surucusu_entry : string
}.

(** Combobox and entries of the fuel tab, as typed. *)
Record YakitGirisi := {
  yakit_arac_combobox : string;
  yakit_km_entry : string;
  yakit_miktar_entry : string;
  yakit_tarih_entry : string;
  yakit_not_entry : string
}.

(** Entries of the depot tab, as typed. *)
Record DepoGirisi := {
  depo_miktar_entry : string;
  depo_tarih_entry : string;
  depo_not_entry : string
}.

(** The selected row of [yakit_tree]:
    [tarih, plaka, km, miktar, notlar = kayit]; [ys_miktar] is
    [float(miktar)]. *)
Record YakitSatiri := {
  ys_tarih : string;
  ys_plaka : string;
  ys_km : Z;
  ys_miktar : Qc;
  ys_notlar : string
}.

(** The selected row of [bakim_tree]: [tarih, ariza, islem, tutar = kayit]. *)
Record BakimSatiri := {
  bs_tarih : string;
  bs_ariza : string;
  bs_islem : string;
  bs_tutar : Qc
}.

(** The row [yakit_kayitlarini_yukle] shows for a stored fuel entry of the
    vehicle [a] (the query joins [araclar] on [arac_id]). *)
Definition yakit_satiri (a : Arac) (r : YakitKaydi) : YakitSatiri :=
  {| ys_tarih := y_tarih r; ys_plaka := plaka a; ys_km := y_km r;
     ys_miktar := yakit_miktari r; ys_notlar := y_notlar r |}.

(** The row [bakim_kayitlarini_getir] shows for a stored maintenance record. *)
Definition bakim_satiri (r : BakimKaydi) : BakimSatiri :=
  {| bs_tarih := b_tarih r; bs_ariza := tespit_edilen_ariza r;
     bs_islem := yapilan_islem r; bs_tutar := toplam_tutar r |}.

(** ** The methods *)

Section Yontemler.
Context `{Kutuphane}.

Definition arac_ekle (g : AracGirisi) : Prog unit :=
  let plaka := py_upper (py_strip (plaka_entry g)) in
  let model := py_strip (model_entry g) in
  let km := py_strip (km_entry g) in
  let model_yili := py_strip (model_yili_entry g) in
  let muayene_tarihi := py_strip (muayene_tarihi_entry g) in
  let bakim_tarihi := py_strip (bakim_tarihi_entry g) in
  let arac_surucusu := py_strip (arac_surucusu_entry g) in
  if bos plaka || bos model || bos km then show_error ZorunluAlanlar
  else
    dene
      (km ← int km;
       (if decide (km < 0) then raise ValueError else mret tt);;
       model_yili ← (if bos model_yili then mret None
                     else y ← int model_yili; mret (Some y));
       execute_kisitli
         (insert_arac plaka model km model_yili muayene_tarihi bakim_tarihi
            arac_surucusu);;
       commit;;
       show_success)
      (λ e,
         match e with
         | ValueError => show_error GecersizDeger
         | IntegrityError => show_error PlakaKayitli
         | _ => show_error (IslemHatasi e);; rollback
         end).

(** [secili] is the plate of the selected row of [arac_tree], [onay] the
    answer to the confirmation dialog. *)
Definition arac_sil (secili : option string) (onay : bool) : Prog unit :=
  match secili with
  | None => show_error SecimYok
  | Some plaka =>
      if negb onay then mret tt
      else
        dene
          (result ← fetch (select_arac_id plaka);
           match result with
           | None => show_error AracBulunamadi
           | Some arac_id =>
               execute (delete_yakit_arac arac_id);;
               execute (delete_bakim_arac arac_id);;
               execute (delete_arac arac_id);;
               commit;;
               show_success
           end)
          (λ e, show_error (IslemHatasi e);; rollback)
  end.

Definition yakit_ekle (g : YakitGirisi) : Prog unit :=
  let arac := yakit_arac_combobox g in
  let km := py_strip (yakit_km_entry g) in
  let miktar := py_strip (yakit_miktar_entry g) in
  let tarih := py_strip (yakit_tarih_entry g) in
  let notlar := py_strip (yakit_not_entry g) in
  if bos arac || bos km || bos miktar || bos tarih then show_error ZorunluAlanlar
  else
    dene
      (arac_id ← arac_id_coz arac;
       km ← int km;
       miktar ← float miktar;
       (if decide (km < 0 ∨ (miktar ≤ 0)%Qc) then raise ValueError else mret tt);;
       tarih_kontrol tarih "%d-%m-%Y %H:%M";;
       execute (insert_yakit arac_id km miktar notlar tarih);;
       execute (update_mevcut_km km arac_id);;
       execute (update_depo (- miktar)%Qc);;
       commit;;
       show_success)
      (λ e,
         match e with
         | ValueError => show_error GecersizDeger
         | _ => show_error (IslemHatasi e);; rollback
         end).

Definition yakit_kaydi_sil (secili : option YakitSatiri) (onay : bool) : Prog unit :=
  match secili with
  | None => show_error SecimYok
  | Some kayit =>
      if negb onay then mret tt
      else
        dene
          (result ← fetch (select_arac_id (ys_plaka kayit));
           match result with
           | None => show_error AracBulunamadi
           | Some arac_id =>
               execute (delete_yakit_kaydi arac_id (ys_tarih kayit) (ys_km kayit));;
               execute (update_depo (ys_miktar kayit));;
               commit;;
               show_success
           end)
          (λ e, show_error (IslemHatasi e);; rollback)
  end.

Definition depo_doldur (g : DepoGirisi) : Prog unit :=
  let miktar := py_strip (depo_miktar_entry g) in
  let tarih := py_strip (depo_tarih_entry g) in
  let notlar := py_strip (depo_not_entry g) in
  if bos miktar || bos tarih then show_error ZorunluAlanlar
  else
    dene
      (miktar ← float miktar;
       (if decide (miktar ≤ 0)%Qc then raise ValueError else mret tt);;
       tarih_kontrol tarih "%d-%m-%Y %H:%M";;
       execute (insert_dolum miktar notlar tarih);;
       execute (update_depo miktar);;
       commit;;
       show_success)
      (λ e,
         match e with
         | ValueError => show_error GecersizDeger
         | _ => show_error (IslemHatasi e);; rollback
         end).

(** [arac] is the text of [bakim_arac_combobox], [secili] the selected row
    of [bakim_tree]. *)
Definition bakim_kaydi_duzenle (arac : string) (secili : option BakimSatiri)
    : Prog unit :=
  match secili with
  | None => show_error SecimYok
  | Some kayit =>
      dene
        (arac_id ← arac_id_coz arac;
         kayit_detay ← fetch (select_bakim_detay arac_id (bs_tarih kayit) (bs_ariza kayit));
         match kayit_detay with
         | None => show_error KayitBulunamadi
         | Some d =>
             form_doldur
               {| bakim_tarih_entry := b_tarih d;
                  bakim_saat_entry := saat d;
                  bakim_ariza_entry := tespit_edilen_ariza d;
                  bakim_islem_entry := yapilan_islem d;
                  bakim_parca_ucreti_entry := parca_ucreti d;
                  bakim_iscilik_ucreti_entry := iscilik_ucreti d;
                  bakim_toplam_tutar_entry := toplam_tutar d;
                  bakim_notlar_entry := b_notlar d |};;
             (* Önce kaydı sil *)
             execute (delete_bakim_kaydi arac_id (bs_tarih kayit) (bs_ariza kayit));;
             commit
         end)
        (λ e, show_error (IslemHatasi e);; rollback)
  end.

End Yontemler.

(** ** A concrete library

    One instance of [Kutuphane] on which the methods can be run.  It covers
    the canonical ASCII spellings only: decimal numerals with an optional
    minus sign for [int], digits with an optional fraction for [float],
    two-digit fields for [strptime].  SQLite's [strftime] is modelled for
    the two formats the program uses, ['%m-%Y'] and ['%Y'], on the time
    values of the forms
      YYYY-MM-DD,  YYYY-MM-DD HH:MM[:SS[.fff]],  HH:MM[:SS[.fff]]
    (the separator being any run of blanks and [T]); every other string
    yields NULL.  Zone suffixes, Julian day numbers and ['now'] are not
    covered: their result needs the calendar arithmetic of SQLite and no
    entry form of the program can store them. *)

Module Ornek.

Definition rakam (c : ascii) : option Z :=
  let n := Z.of_N (N_of_ascii c) in
  if decide (48 ≤ n ≤ 57) then Some (n - 48) else None.

(** Exactly [n] digits at the head of [s]: their value and the rest. *)
Fixpoint rakamlar (n : nat) (acc : Z) (s : string) : option (Z * string) :=
  match n with
  | O => Some (acc, s)
  | S n' =>
      match s with
      | EmptyString => None
      | String c r =>
          match rakam c with
          | Some d => rakamlar n' (10 * acc + d) r
          | None => None
          end
      end
  end.

Definition bosluk_mu (c : ascii) : bool :=
  let n := Z.of_N (N_of_ascii c) in
  bool_decide (n = 32 ∨ 9 ≤ n ≤ 13).

Fixpoint bosluk_atla (s : string) : string :=
  match s with
  | EmptyString => EmptyString
  | String c r => if bosluk_mu c then bosluk_atla r else s
  end.

Fixpoint bosluk_T_atla (s : string) : string :=
  match s with
  | EmptyString => EmptyString
  | String c r =>
      if bosluk_mu c || bool_decide (c = "T"%char) then bosluk_T_atla r else s
  end.

Fixpoint rakam_atla (s : string) : string :=
  match s with
  | EmptyString => EmptyString
  | String c r => if rakam c is Some _ then rakam_atla r else s
  end.

(** SQLite's [parseHhMmSs] without zone suffix: does [s] read as a time? *)
Definition sqlite_saat (s : string) : bool :=
  match rakamlar 2 0 s with
  | Some (h, String ":" s1) =>
      match rakamlar 2 0 s1 with
      | Some (m, s2) =>
          bool_decide (h ≤ 24 ∧ m ≤ 59) &&
          match s2 with
          | String ":" s3 =>
              match rakamlar 2 0 s3 with
              | Some (sn, s4) =>
                  bool_decide (sn ≤ 59) &&
                  match s4 with
                  | String "." (String d r) =>
                      if rakam d is Some _ then bos (bosluk_atla (rakam_atla r))
                      else false
                  | _ => bos (bosluk_atla s4)
                  end
              | None => false
              end
          | _ => bos (bosluk_atla s2)
          end
      | None => false
      end
  | _ => false
  end.

(** SQLite's [parseYyyyMmDd] followed by the time-only fallback: the year and
    the month of a time value, as the four and two characters [strftime]
    prints for [%Y] and [%m]. *)
Definition sqlite_tarih (s : string) : option (string * string) :=
  match rakamlar 4 0 s with
  | Some (_, String "-" s1) =>
      match rakamlar 2 0 s1 with
      | Some (m, String "-" s2) =>
          match rakamlar 2 0 s2 with
          | Some (d, s3) =>
              let s4 := bosluk_T_atla s3 in
              if bool_decide (1 ≤ m ≤ 12 ∧ 1 ≤ d ≤ 31) && (bos s4 || sqlite_saat s4)
              then Some (substring 0 4 s, substring 5 2 s)
              else None
          | None => None
          end
      | _ => None
      end
  | _ => if sqlite_saat s then Some ("2000", "01") else None
  end.

Definition sqlite_strftime (fmt s : string) : option string :=
  if bool_decide (fmt = "%m-%Y") then (λ ya, ya.2 +:+ "-" +:+ ya.1) <$> sqlite_tarih s
  else if bool_decide (fmt = "%Y") then fst <$> sqlite_tarih s
  else None.

Fixpoint sayi_oku (s : string) (acc : Z) : option Z :=
  match s with
  | EmptyString => Some acc
  | String c r =>
      match rakam c with
      | Some d => sayi_oku r (10 * acc + d)
      | None => None
      end
  end.

Definition ornek_int (s : string) : option Z :=
  match s with
  | EmptyString => None
  | String "-" r => if bos r then None else Z.opp <$> sayi_oku r 0
  | _ => sayi_oku s 0
  end.

(** Digits up to the first dot, and what follows the dot. *)
Fixpoint noktadan_bol (s : string) : string * option string :=
  match s with
  | EmptyString => (EmptyString, None)
  | String "." r => (EmptyString, Some r)
  | String c r => let '(a, b) := noktadan_bol r in (String c a, b)
  end.

Definition ornek_float (s : string) : option Qc :=
  match noktadan_bol s with
  | (a, None) => if bos a then None else Z2Qc <$> sayi_oku a 0
  | (a, Some b) =>
      if bos a || bos b then None
      else
        match sayi_oku a 0, sayi_oku b 0 with
        | Some x, Some y =>
            Some (Z2Qc x + Z2Qc y / Z2Qc (10 ^ Z.of_nat (String.length b)))%Qc
        | _, _ => None
        end
  end.

Fixpoint sagdan_kirp (s : string) : string :=
  match s with
  | EmptyString => EmptyString
  | String c r =>
      let r' := sagdan_kirp r in
      if bosluk_mu c && bos r' then EmptyString else String c r'
  end.

Definition ornek_strip (s : string) : string := sagdan_kirp (bosluk_atla s).

Definition buyuk_harf (c : ascii) : ascii :=
  let n := N_of_ascii c in
  if bool_decide (97 ≤ Z.of_N n ≤ 122) then ascii_of_N (n - 32) else c.

Fixpoint ornek_upper (s : string) : string :=
  match s with
  | EmptyString => EmptyString
  | String c r => String (buyuk_harf c) (ornek_upper r)
  end.

Definition ay_uzunlugu (y m : Z) : Z :=
  if bool_decide (m = 2) then
    if bool_decide (y mod 4 = 0 ∧ (y mod 100 ≠ 0 ∨ y mod 400 = 0)) then 29 else 28
  else if bool_decide (m = 4 ∨ m = 6 ∨ m = 9 ∨ m = 11) then 30 else 31.

(** [strptime] for the format of the fuel and depot forms, two-digit fields. *)
Definition ornek_strptime (s fmt : string) : bool :=
  bool_decide (fmt = "%d-%m-%Y %H:%M") &&
  match rakamlar 2 0 s with
  | Some (d, String "-" s1) =>
      match rakamlar 2 0 s1 with
      | Some (m, String "-" s2) =>
          match rakamlar 4 0 s2 with
          | Some (y, String " " s3) =>
              match rakamlar 2 0 s3 with
              | Some (h, String ":" s4) =>
                  match rakamlar 2 0 s4 with
                  | Some (mi, EmptyString) =>
                      bool_decide (1 ≤ y ∧ 1 ≤ m ≤ 12 ∧ 1 ≤ d ≤ ay_uzunlugu y m
                                   ∧ h ≤ 23 ∧ mi ≤ 59)
                  | _ => false
                  end
              | _ => false
              end
          | _ => false
          end
      | _ => false
      end
  | _ => false
  end.

#[global] Instance kutuphane : Kutuphane := {|
  py_int := ornek_int;
  py_float := ornek_float;
  py_strip := ornek_strip;
  py_upper := ornek_upper;
  strptime := ornek_strptime;
  strftime := sqlite_strftime
|}.

End Ornek.

(** ** Vocabulary of the statements *)

Section Sozluk.
Context `{Kutuphane}.

(** The vehicle id a combobox text stands for, when it has one. *)
Definition arac_id_degeri (arac : string) : option Z :=
  match split_ID_1 arac with
  | None => None
  | Some t => py_int (rstrip_parantez t)
  end.

(** The fuel form holds a valid entry for vehicle [a]: odometer [k],
    volume [v]. *)
Definition yakit_girisi_gecerli (g : YakitGirisi) (a k : Z) (v : Qc) : Prop :=
  arac_id_degeri (yakit_arac_combobox g) = Some a
  ∧ py_strip (yakit_km_entry g) ≠ ""
  ∧ py_strip (yakit_miktar_entry g) ≠ ""
  ∧ py_strip (yakit_tarih_entry g) ≠ ""
  ∧ py_int (py_strip (yakit_km_entry g)) = Some k
  ∧ py_float (py_strip (yakit_miktar_entry g)) = Some v
  ∧ 0 ≤ k
  ∧ (0 < v)%Qc
  ∧ strptime (py_strip (yakit_tarih_entry g)) "%d-%m-%Y %H:%M" = true.

(** The row of [yakit_tree] that shows the entry written from [g] for the
    vehicle [a]. *)
Definition girilen_satir (g : YakitGirisi) (a : Arac) (k : Z) (v : Qc) : YakitSatiri :=
  {| ys_tarih := py_strip (yakit_tarih_entry g); ys_plaka := plaka a; ys_km := k;
     ys_miktar := v; ys_notlar := py_strip (yakit_not_entry g) |}.


End Sozluk.

(** Sum of the volumes of a list of fuel rows. *)
Definition hacim_toplami (rs : list YakitKaydi) : Qc :=
  foldr (λ r acc, yakit_miktari r + acc)%Qc 0%Qc rs.

(** Rate of one period, in L/100km. *)
Definition donem_orani (v : DonemSatiri) : Qc :=
  (yakit v / Z2Qc (son_km v - bas_km v) * Z2Qc 100)%Qc.

(** Unweighted arithmetic mean. *)
Definition aritmetik_ortalama (l : list Qc) : Qc :=
  (foldr Qcplus 0 l / Z2Qc (Z.of_nat (length l)))%Qc.


(** ** Scenarios on the concrete library *)

Module Senaryo.
Import Ornek.

Definition bos_etiketler : Etiketler :=
  {| ortalama_tuketim_label := Cizgi; aylik_ortalama_label := Cizgi;
     yillik_ortalama_label := Cizgi |}.

Definition bos_form : BakimFormu :=
  {| bakim_tarih_entry := ""; bakim_saat_entry := ""; bakim_ariza_entry := "";
     bakim_islem_entry := ""; bakim_parca_ucreti_entry := 0%Qc;
     bakim_iscilik_ucreti_entry := 0%Qc; bakim_toplam_tutar_entry := 0%Qc;
     bakim_notlar_entry := "" |}.

(** The application on a given database, nothing pending, nothing shown. *)
Definition uygulama (vt : VT) : Uygulama :=
  {| conn := {| kalici := vt; calisma := vt |}; etiketler := bos_etiketler;
     bakim_formu := bos_form; mesajlar := [] |}.

(** The program right after start-up. *)
Definition baslangic : Uygulama := uygulama bos_vt.

Definition arac_girisi (p k : string) : AracGirisi :=
  {| plaka_entry := p; model_entry := "Transit"; km_entry := k;
     model_yili_entry := "2015"; muayene_tarihi_entry := "";
     bakim_tarihi_entry := ""; arac_surucusu_entry := "" |}.

Definition yakit_girisi (arac k v t : string) : YakitGirisi :=
  {| yakit_arac_combobox := arac; yakit_km_entry := k; yakit_miktar_entry := v;
     yakit_tarih_entry := t; yakit_not_entry := "" |}.

(** Run a list of methods in order. *)
Definition sirayla (ps : list (Prog unit)) (u : Uygulama) : Uygulama :=
  foldl (λ u p, calistir p u) u ps.

(** One vehicle, id 1, plate 34ABC01, odometer 1000. *)
Definition tek_arac : Uygulama :=
  calistir (arac_ekle (arac_girisi " 34abc01 " "1000")) baslangic.

Definition arac1 : string := "34ABC01 (ID:1)".

(** The depot filled with 100 L, one vehicle. *)
Definition dolu_depo : Uygulama :=
  calistir (depo_doldur {| depo_miktar_entry := "100";
                           depo_tarih_entry := "01-01-2023 08:00";
                           depo_not_entry := "" |}) tek_arac.

(** Two entries: volumes 30 and 32 at odometers 1000 and 1800. *)
Definition iki_kayit : Uygulama :=
  sirayla [ yakit_ekle (yakit_girisi arac1 "1000" "30" "05-01-2023 10:00");
            yakit_ekle (yakit_girisi arac1 "1800" "32" "25-01-2023 10:00") ]
          dolu_depo.


(** Two entries with the same odometer reading. *)
Definition ayni_km : Uygulama :=
  sirayla [ yakit_ekle (yakit_girisi arac1 "1000" "30" "05-01-2023 10:00");
            yakit_ekle (yakit_girisi arac1 "1000" "32" "25-01-2023 10:00") ]
          dolu_depo.

(** January: 10 L over 200 km (5 L/100km); February: 7 L over 100 km
    (7 L/100km).  Timestamps as the fuel form accepts them. *)
Definition iki_ay : Uygulama :=
  sirayla [ yakit_ekle (yakit_girisi arac1 "1000" "5" "01-01-2023 10:00");
            yakit_ekle (yakit_girisi arac1 "1200" "5" "20-01-2023 10:00");
            yakit_ekle (yakit_girisi arac1 "2000" "3" "01-02-2023 10:00");
            yakit_ekle (yakit_girisi arac1 "2100" "4" "20-02-2023 10:00") ]
          dolu_depo.

Definition yakit_satiri_yaz (a k : Z) (v : Qc) (t : string) : VT → VT :=
  insert_yakit a k v "" t.

(** The same four entries stored with ISO-8601 timestamps, which no form of
    the program writes. *)
Definition iki_ay_iso : Uygulama :=
  uygulama
    (yakit_satiri_yaz 1 2100 (Z2Qc 4) "2023-02-20 10:00"
       (yakit_satiri_yaz 1 2000 (Z2Qc 3) "2023-02-01 10:00"
          (yakit_satiri_yaz 1 1200 (Z2Qc 5) "2023-01-20 10:00"
             (yakit_satiri_yaz 1 1000 (Z2Qc 5) "2023-01-01 10:00"
                (calisma (conn dolu_depo)))))).


Definition bakim_yaz (a : Z) (t s ar i : string) (p c : Qc) (vt : VT) : VT :=
  bakim_degistir
    (λ l, l ++ [ {| b_kayit_id := Z.of_nat (length l) + 1; b_arac_id := a;
                    b_tarih := t; saat := s; tespit_edilen_ariza := ar;
                    yapilan_islem := i; parca_ucreti := p; iscilik_ucreti := c;
                    toplam_tutar := (p + c)%Qc; b_notlar := "" |} ])
    vt.

(** Three maintenance records of vehicle 1; the first two share date and
    fault description. *)
Definition uc_bakim : Uygulama :=
  uygulama
    (bakim_yaz 1 "11-03-2023" "09:00" "Fren" "Disk" (Z2Qc 50) (Z2Qc 20)
       (bakim_yaz 1 "10-03-2023" "14:00" "Fren" "Balata" (Z2Qc 40) (Z2Qc 10)
          (bakim_yaz 1 "10-03-2023" "09:00" "Fren" "Ayar" (Z2Qc 0) (Z2Qc 15)
             (calisma (conn iki_kayit))))).

(** The second of them, as stored. *)
Definition balata : BakimKaydi :=
  {| b_kayit_id := 2; b_arac_id := 1; b_tarih := "10-03-2023"; saat := "14:00";
     tespit_edilen_ariza := "Fren"; yapilan_islem := "Balata";
     parca_ucreti := Z2Qc 40; iscilik_ucreti := Z2Qc 10;
     toplam_tutar := (Z2Qc 40 + Z2Qc 10)%Qc; b_notlar := "" |}.

End Senaryo.

(** Pure counterparts of the three figures, used to factor the proofs. *)

Definition genel_etiket (rs : list YakitKaydi) : Etiket :=
  match sql_min (y_km <$> rs), sql_max (y_km <$> rs) with
  | Some lo, Some hi =>
      if decide (0 < hi - lo)
      then Oran (hacim_toplami rs / Z2Qc (hi - lo) * Z2Qc 100)%Qc
      else KmHatasi
  | _, _ => VeriYok
  end.

Definition donem_etiket (veriler : list DonemSatiri) : Etiket :=
  match veriler with
  | [] => VeriYok
  | _ => Oran (aritmetik_ortalama (donem_orani <$> veriler))
  end.

(** ** Further methods

    Start-up ([initialize_database]), the remaining writes
    ([depo_dolum_sil], [bakim_kaydi_ekle], [bakim_kaydi_sil],
    [arac_detay_guncelle]), the texts of the vehicle comboboxes, the query
    behind the fuel list and the data of the consumption graph. *)

(** The database file right after [create_tables] on a new file: five empty
    tables. *)
Definition yeni_vt : VT := {|
  araclar := [];
  yakit_kayitlari := [];
  depo_dolumlari := [];
  depo := [];
  bakim_tamirat := [];
  sira := {| sira_araclar := 0; sira_yakit := 0; sira_dolum := 0; sira_bakim := 0 |}
|}.

(** [INSERT OR IGNORE INTO depo (depo_id, mevcut_yakit) VALUES (1, 0)]:
    [depo_id] is the primary key, so a stored row with id 1 turns the
    statement into a no-op. *)
Definition insert_or_ignore_depo (vt : VT) : VT :=
  if bool_decide (1 ∈ depo_id <$> depo vt) then vt
  else depo_degistir (λ l, l ++ [ {| depo_id := 1; mevcut_yakit := 0%Qc |} ]) vt.

(** [except sqlite3.Error] catches the database errors only. *)
Definition initialize_database : Prog unit :=
  dene
    (execute insert_or_ignore_depo;;
     commit)
    (λ e,
       match e with
       | IntegrityError => show_error (IslemHatasi e);; rollback
       | _ => raise e
       end).

(** The selected row of [depo_tree]: [tarih, miktar, notlar = kayit];
    [ds_miktar] is [float(miktar)]. *)
Record DepoSatiri := {
  ds_tarih : string;
  ds_miktar : Qc;
  ds_notlar : string
}.


(** [DELETE FROM depo_dolumlari WHERE tarih = ? AND miktar = ?] *)
Definition delete_dolum (t : string) (v : Qc) : VT → VT :=
  dolum_degistir (filter (λ r, ¬ (d_tarih r = t ∧ d_miktar r = v))).

Definition depo_dolum_sil (secili : option DepoSatiri) (onay : bool) : Prog unit :=
  match secili with
  | None => show_error SecimYok
  | Some kayit =>
      if negb onay then mret tt
      else
        dene
          (execute (update_depo (- ds_miktar kayit)%Qc);;
           execute (delete_dolum (ds_tarih kayit) (ds_miktar kayit));;
           commit;;
           show_success)
          (λ e, show_error (IslemHatasi e);; rollback)
  end.

(** Combobox and entries of the maintenance tab, as typed. *)
Record BakimGirisi := {
  bg_arac : string;        (* bakim_arac_combobox *)
  bg_tarih : string;       (* bakim_tarih_entry *)
  bg_saat : string;        (* bakim_saat_entry *)
  bg_ariza : string;       (* bakim_ariza_entry *)
  bg_islem : string;       (* bakim_islem_entry *)
  bg_parca_ucreti : string;    (* bakim_parca_ucreti_entry *)
  bg_iscilik_ucreti : string;  (* bakim_iscilik_ucreti_entry *)
  bg_toplam_tutar : string;    (* bakim_toplam_tutar_entry *)
  bg_notlar : string       (* bakim_notlar_entry *)
}.

(** [INSERT INTO bakim_tamirat (arac_id, tarih, saat, tespit_edilen_ariza,
    yapilan_islem, parca_ucreti, iscilik_ucreti, toplam_tutar, notlar)
    VALUES (?, ?, ?, ?, ?, ?, ?, ?, ?)] *)
Definition insert_bakim (a : Z) (t s ar i : string) (p c tt : Qc) (n : string)
    (vt : VT) : VT :=
  let k := sira_bakim (sira vt) + 1 in
  sira_degistir
    (λ q, {| sira_araclar := sira_araclar q; sira_yakit := sira_yakit q;
             sira_dolum := sira_dolum q; sira_bakim := k |})
    (bakim_degistir
       (λ l, l ++ [ {| b_kayit_id := k; b_arac_id := a; b_tarih := t; saat := s;
                       tespit_edilen_ariza := ar; yapilan_islem := i;
                       parca_ucreti := p; iscilik_ucreti := c; toplam_tutar := tt;
                       b_notlar := n |} ])
       vt).

Definition detay_yaz (my : option Z) (mt bt s : string) (a : Arac) : Arac :=
  {| arac_id := arac_id a; plaka := plaka a; model := model a;
     mevcut_km := mevcut_km a; model_yili := my; muayene_tarihi := mt;
     bakim_tarihi := bt; arac_surucusu := s |}.

(** [UPDATE araclar SET model_yili = ?, muayene_tarihi = ?, bakim_tarihi = ?,
    arac_surucusu = ? WHERE arac_id = ?] *)
Definition update_arac_detay (my : option Z) (mt bt s : string) (a : Z) : VT → VT :=
  araclar_degistir
    (fmap (λ r, if decide (arac_id r = a) then detay_yaz my mt bt s r else r)).

(** Combobox and entries of the vehicle-detail tab, as typed. *)
Record DetayGirisi := {
  dg_arac : string;             (* arac_detay_combobox *)
  dg_model_yili : string;       (* update_entries['model_yili'] *)
  dg_muayene_tarihi : string;   (* update_entries['muayene_tarihi'] *)
  dg_bakim_tarihi : string;     (* update_entries['bakim_tarihi'] *)
  dg_arac_surucusu : string     (* update_entries['arac_surucusu'] *)
}.

Section DigerYontemler.
Context `{Kutuphane}.

(** [float(x) if x else 0] *)
Definition ucret (x : string) : Prog Qc :=
  if bos x then mret 0%Qc else float x.

Definition bakim_kaydi_ekle (g : BakimGirisi) : Prog unit :=
  let arac := bg_arac g in
  let tarih := py_strip (bg_tarih g) in
  let saat := py_strip (bg_saat g) in
  let ariza := py_strip (bg_ariza g) in
  let islem := py_strip (bg_islem g) in
  let parca_ucreti := py_strip (bg_parca_ucreti g) in
  let iscilik_ucreti := py_strip (bg_iscilik_ucreti g) in
  let toplam_tutar := py_strip (bg_toplam_tutar g) in
  let notlar := py_strip (bg_notlar g) in
  if bos arac then show_error SecimYok
  else
    dene
      (arac_id ← arac_id_coz arac;
       tarih_kontrol tarih "%d-%m-%Y";;
       tarih_kontrol saat "%H:%M";;
       parca_ucreti ← ucret parca_ucreti;
       iscilik_ucreti ← ucret iscilik_ucreti;
       toplam_tutar ← ucret toplam_tutar;
       execute (insert_bakim arac_id tarih saat ariza islem
                  parca_ucreti iscilik_ucreti toplam_tutar notlar);;
       commit;;
       show_success)
      (λ e,
         match e with
         | ValueError => show_error GecersizDeger
         | _ => show_error (IslemHatasi e);; rollback
         end).

(** [arac] is the text of [bakim_arac_combobox], [secili] the selected row
    of [bakim_tree], [onay] the answer to the confirmation dialog. *)
Definition bakim_kaydi_sil (arac : string) (secili : option BakimSatiri)
    (onay : bool) : Prog unit :=
  match secili with
  | None => show_error SecimYok
  | Some kayit =>
      if negb onay then mret tt
      else
        dene
          (arac_id ← arac_id_coz arac;
           execute (delete_bakim_kaydi arac_id (bs_tarih kayit) (bs_ariza kayit));;
           commit;;
           show_success)
          (λ e, show_error (IslemHatasi e);; rollback)
  end.

Definition arac_detay_guncelle (g : DetayGirisi) : Prog unit :=
  let arac := dg_arac g in
  if bos arac then show_error SecimYok
  else
    dene
      (arac_id ← arac_id_coz arac;
       let model_yili := py_strip (dg_model_yili g) in
       let muayene_tarihi := py_strip (dg_muayene_tarihi g) in
       let bakim_tarihi := py_strip (dg_bakim_tarihi g) in
       let arac_surucusu := py_strip (dg_arac_surucusu g) in
       (if bos muayene_tarihi then mret tt
        else tarih_kontrol muayene_tarihi "%d-%m-%Y");;
       (if bos bakim_tarihi then mret tt
        else tarih_kontrol bakim_tarihi "%d-%m-%Y");;
       model_yili ← (if bos model_yili then mret None
                     else y ← int model_yili; mret (Some y));
       execute (update_arac_detay model_yili muayene_tarihi bakim_tarihi
                  arac_surucusu arac_id);;
       commit;;
       show_success)
      (λ e,
         match e with
         | ValueError => show_error GecersizDeger
         | _ => show_error (IslemHatasi e);; rollback
         end).

End DigerYontemler.

(** *** The vehicle comboboxes *)

(** [str(z)] for an integer. *)
Definition onluk (z : Z) : string := NilEmpty.string_of_int (Z.to_int z).

(** [f"{plaka} (ID:{arac_id})"] *)
Definition arac_secenegi (a : Arac) : string :=
  plaka a +:+ " (ID:" +:+ onluk (arac_id a) +:+ ")".

(** [ORDER BY plaka] *)
Definition plaka_sirasi (a b : Arac) : Prop :=
  Is_true (String.leb (plaka a) (plaka b)).

#[global] Instance plaka_sirasi_dec a b : Decision (plaka_sirasi a b).
Proof. unfold plaka_sirasi. apply _. Defined.

(** The values [yakit_arac_combobox_guncelle], [arac_detay_combobox_guncelle]
    and [bakim_arac_combobox_guncelle] give to their combobox:
    [SELECT arac_id, plaka FROM araclar ORDER BY plaka], one text per row. *)
Definition arac_secenekleri (vt : VT) : list string :=
  arac_secenegi <$> merge_sort plaka_sirasi (araclar vt).

(** [rapor_arac_combobox_guncelle]: the same with "Tüm Araçlar" in front. *)
Definition rapor_secenekleri (vt : VT) : list string :=
  "Tüm Araçlar" :: arac_secenekleri vt.

(** *** The fuel list *)

#[global] Instance YakitSatiri_eq_dec : EqDecision YakitSatiri.
Proof. solve_decision. Defined.

(** [... FROM yakit_kayitlari y JOIN araclar a ON y.arac_id = a.arac_id] *)
Definition yakit_birlesim (vt : VT) : list YakitSatiri :=
  mbind (M:=list)
    (λ r, (λ a, yakit_satiri a r)
            <$> filter (λ a, arac_id a = y_arac_id r) (araclar vt))
    (yakit_kayitlari vt).

(** [ORDER BY y.tarih DESC] *)
Definition tarih_azalan (s1 s2 : YakitSatiri) : Prop :=
  Is_true (String.leb (ys_tarih s2) (ys_tarih s1)).

#[global] Instance tarih_azalan_dec s1 s2 : Decision (tarih_azalan s1 s2).
Proof. unfold tarih_azalan. apply _. Defined.

(** The rows [yakit_kayitlarini_yukle] puts into [yakit_tree]:
    [SELECT y.tarih, a.plaka, y.km, y.yakit_miktari, y.notlar
     FROM yakit_kayitlari y JOIN araclar a ON y.arac_id = a.arac_id
     ORDER BY y.tarih DESC LIMIT 500] *)
Definition yakit_kayitlarini_yukle (vt : VT) : list YakitSatiri :=
  take 500 (merge_sort tarih_azalan (yakit_birlesim vt)).

(** *** The detail form *)

(** What [arac_detay_getir] puts into the four update entries for the row
    of a vehicle: [str(model_yili) if model_yili else ""] and the three
    texts, an entry staying empty for an empty text. *)
Definition detay_formu (arac : string) (a : Arac) : DetayGirisi :=
  {| dg_arac := arac;
     dg_model_yili :=
       match model_yili a with
       | Some y => if decide (y = 0) then "" else onluk y
       | None => ""
       end;
     dg_muayene_tarihi := muayene_tarihi a;
     dg_bakim_tarihi := bakim_tarihi a;
     dg_arac_surucusu := arac_surucusu a |}.

(** [SELECT plaka, model, mevcut_km, model_yili, muayene_tarihi, bakim_tarihi,
    arac_surucusu FROM araclar WHERE arac_id = ?] and [fetchone()] *)
Definition select_arac_detay (i : Z) (vt : VT) : option Arac :=
  head (filter (λ r, arac_id r = i) (araclar vt)).

Section DetayGetir.
Context `{Kutuphane}.

(** The update form after [arac_detay_getir], [arac] being the text of
    [arac_detay_combobox]: [None] when the method returns before it fills
    the form (no vehicle chosen, a text that cannot be read, or "Araç
    bulunamadı!").  The labels, the warnings and the list of the vehicle's
    fuel entries, which the method also refreshes, are not part of this. *)
Definition arac_detay_getir (arac : string) (vt : VT) : option DetayGirisi :=
  if bos arac then None
  else
    match arac_id_degeri arac with
    | None => None
    | Some i => detay_formu arac <$> select_arac_detay i vt
    end.

End DetayGetir.

(** *** The report list *)

Section Rapor.
Context `{Kutuphane}.

(** [WHERE 1=1 {arac_kosulu} {ay_kosulu}] on a fuel row: [arac_no] is the
    id read from the vehicle text ([None] without a vehicle filter), [ay]
    the month text ([None] without a month filter). *)
Definition rapor_kosulu (arac_no : option Z) (ay : option string) (r : YakitKaydi)
    : Prop :=
  match arac_no with Some a => y_arac_id r = a | None => True end
  ∧ match ay with Some m => strftime "%m-%Y" (y_tarih r) = Some m | None => True end.

#[global] Instance rapor_kosulu_dec arac_no ay r : Decision (rapor_kosulu arac_no ay r).
Proof. unfold rapor_kosulu. destruct arac_no, ay; apply _. Defined.



End Rapor.

(** *** The consumption graph *)

(** [ORDER BY y.tarih] *)
Definition tarih_artan (r1 r2 : YakitKaydi) : Prop :=
  Is_true (String.leb (y_tarih r1) (y_tarih r2)).

#[global] Instance tarih_artan_dec r1 r2 : Decision (tarih_artan r1 r2).
Proof. unfold tarih_artan. apply _. Defined.




(** What the two plots show: [kmler] and [tuketimler]. *)
Record Grafik := {
  g_kmler : list Z;
  g_tuketimler : list Qc
}.

#[global] Instance Grafik_eq_dec : EqDecision Grafik.
Proof. solve_decision. Defined.

Section GrafikVerisi.
Context `{Kutuphane}.


End GrafikVerisi.

(** *** Sessions *)

(** A call of one of the modelled methods, with what it reads from the
    widgets. *)
Inductive Cagri :=
| CInitializeDatabase
| CAracEkle (g : AracGirisi)
| CAracSil (secili : option string) (onay : bool)
| CAracDetayGuncelle (g : DetayGirisi)
| CYakitEkle (g : YakitGirisi)
| CYakitKaydiSil (secili : option YakitSatiri) (onay : bool)
| CDepoDoldur (g : DepoGirisi)
| CDepoDolumSil (secili : option DepoSatiri) (onay : bool)
| CBakimKaydiEkle (g : BakimGirisi)
| CBakimKaydiSil (arac : string) (secili : option BakimSatiri) (onay : bool)
| CBakimKaydiDuzenle (arac : string) (secili : option BakimSatiri)
| CIstatistik (arac : string).

Section Oturum.
Context `{Kutuphane}.

Definition cagir (c : Cagri) : Prog unit :=
  match c with
  | CInitializeDatabase => initialize_database
  | CAracEkle g => arac_ekle g
  | CAracSil s o => arac_sil s o
  | CAracDetayGuncelle g => arac_detay_guncelle g
  | CYakitEkle g => yakit_ekle g
  | CYakitKaydiSil s o => yakit_kaydi_sil s o
  | CDepoDoldur g => depo_doldur g
  | CDepoDolumSil s o => depo_dolum_sil s o
  | CBakimKaydiEkle g => bakim_kaydi_ekle g
  | CBakimKaydiSil arac s o => bakim_kaydi_sil arac s o
  | CBakimKaydiDuzenle arac s => bakim_kaydi_duzenle arac s
  | CIstatistik arac => yakit_istatistiklerini_hesapla arac
  end.

(** The application after a sequence of calls, in order. *)
Definition oturum (cs : list Cagri) (u : Uygulama) : Uygulama :=
  foldl (λ u c, calistir (cagir c) u) u cs.

End Oturum.

(** Plates and vehicle ids are unique, and no vehicle id exceeds the
    AUTOINCREMENT counter of the table. *)
Definition araclar_duzgun (vt : VT) : Prop :=
  NoDup (plaka <$> araclar vt)
  ∧ NoDup (arac_id <$> araclar vt)
  ∧ ∀ a, a ∈ araclar vt → arac_id a ≤ sira_araclar (sira vt).




(** A text contains "ID:". *)
Definition ayrac_iceriyor (s : string) : Prop := is_Some (ayrac_sonrasi s).

(** A text starts with "ID:". *)
Definition ayrac_basta (s : string) : bool :=
  match s with
  | String "I" (String "D" (String ":" _)) => true
  | _ => false
  end.

(** The character [c] does not occur in a text. *)
Fixpoint karakter_yok (c : ascii) (s : string) : Prop :=
  match s with
  | EmptyString => True
  | String d r => d ≠ c ∧ karakter_yok c r
  end.

(** The entries of the maintenance form hold what [bakim_kaydi_duzenle] put
    into the form [f]: the same texts, and amounts that read back as the
    numbers. *)
Definition formu_tasir `{Kutuphane} (arac : string) (g : BakimGirisi) (f : BakimFormu) : Prop :=
  bg_arac g = arac
  ∧ py_strip (bg_tarih g) = bakim_tarih_entry f
  ∧ py_strip (bg_saat g) = bakim_saat_entry f
  ∧ py_strip (bg_ariza g) = bakim_ariza_entry f
  ∧ py_strip (bg_islem g) = bakim_islem_entry f
  ∧ py_strip (bg_notlar g) = bakim_notlar_entry f
  ∧ py_strip (bg_parca_ucreti g) ≠ ""
  ∧ py_strip (bg_iscilik_ucreti g) ≠ ""
  ∧ py_strip (bg_toplam_tutar g) ≠ ""
  ∧ py_float (py_strip (bg_parca_ucreti g)) = Some (bakim_parca_ucreti_entry f)
  ∧ py_float (py_strip (bg_iscilik_ucreti g)) = Some (bakim_iscilik_ucreti_entry f)
  ∧ py_float (py_strip (bg_toplam_tutar g)) = Some (bakim_toplam_tutar_entry f).

(** ** A second concrete library

    [Ornek.kutuphane] with [strptime] extended to the two other formats the
    program checks, ["%d-%m-%Y"] and ["%H:%M"], two-digit fields again. *)

Module Ornek2.
Import Ornek.

Definition strptime_tarih (s : string) : bool :=
  match rakamlar 2 0 s with
  | Some (d, String "-" s1) =>
      match rakamlar 2 0 s1 with
      | Some (m, String "-" s2) =>
          match rakamlar 4 0 s2 with
          | Some (y, EmptyString) =>
              bool_decide (1 ≤ y ∧ 1 ≤ m ≤ 12 ∧ 1 ≤ d ≤ ay_uzunlugu y m)
          | _ => false
          end
      | _ => false
      end
  | _ => false
  end.

Definition strptime_saat (s : string) : bool :=
  match rakamlar 2 0 s with
  | Some (h, String ":" s1) =>
      match rakamlar 2 0 s1 with
      | Some (mi, EmptyString) => bool_decide (h ≤ 23 ∧ mi ≤ 59)
      | _ => false
      end
  | _ => false
  end.

Definition ornek_strptime2 (s fmt : string) : bool :=
  if bool_decide (fmt = "%d-%m-%Y") then strptime_tarih s
  else if bool_decide (fmt = "%H:%M") then strptime_saat s
  else ornek_strptime s fmt.

Definition kutuphane2 : Kutuphane := {|
  py_int := ornek_int;
  py_float := ornek_float;
  py_strip := ornek_strip;
  py_upper := ornek_upper;
  strptime := ornek_strptime2;
  strftime := sqlite_strftime
|}.

End Ornek2.


(** ** Further vocabulary *)

Section Sozluk2.
Context `{Kutuphane}.





(** The detail form passes every check of [arac_detay_guncelle]: vehicle
    [a], model year [my] ([None] for an empty entry). *)
Definition detay_girisi_gecerli (g : DetayGirisi) (a : Z) (my : option Z) : Prop :=
  dg_arac g ≠ ""
  ∧ arac_id_degeri (dg_arac g) = Some a
  ∧ (py_strip (dg_muayene_tarihi g) = ""
     ∨ strptime (py_strip (dg_muayene_tarihi g)) "%d-%m-%Y" = true)
  ∧ (py_strip (dg_bakim_tarihi g) = ""
     ∨ strptime (py_strip (dg_bakim_tarihi g)) "%d-%m-%Y" = true)
  ∧ ((py_strip (dg_model_yili g) = "" ∧ my = None)
     ∨ (py_strip (dg_model_yili g) ≠ ""
        ∧ is_Some my ∧ py_int (py_strip (dg_model_yili g)) = my)).

(** [float(x) if x else 0] as a value. *)
Definition ucret_degeri (x : string) : option Qc :=
  if bos x then Some 0%Qc else py_float x.

(** The maintenance form passes every check of [bakim_kaydi_ekle]: vehicle
    [a], parts cost [p], labour cost [c], total [tt]. *)
Definition bakim_girisi_gecerli (g : BakimGirisi) (a : Z) (p c tt : Qc) : Prop :=
  bg_arac g ≠ ""
  ∧ arac_id_degeri (bg_arac g) = Some a
  ∧ strptime (py_strip (bg_tarih g)) "%d-%m-%Y" = true
  ∧ strptime (py_strip (bg_saat g)) "%H:%M" = true
  ∧ ucret_degeri (py_strip (bg_parca_ucreti g)) = Some p
  ∧ ucret_degeri (py_strip (bg_iscilik_ucreti g)) = Some c
  ∧ ucret_degeri (py_strip (bg_toplam_tutar g)) = Some tt.


End Sozluk2.

(** A maintenance record under another id. *)
Definition kimlik_yaz (i : Z) (d : BakimKaydi) : BakimKaydi :=
  {| b_kayit_id := i; b_arac_id := b_arac_id d; b_tarih := b_tarih d;
     saat := saat d; tespit_edilen_ariza := tespit_edilen_ariza d;
     yapilan_islem := yapilan_islem d; parca_ucreti := parca_ucreti d;
     iscilik_ucreti := iscilik_ucreti d; toplam_tutar := toplam_tutar d;
     b_notlar := b_notlar d |}.

(** Sum of the volumes of a list of depot fills. *)
Definition dolum_hacmi (l : list DepoDolumu) : Qc :=
  foldr (λ r acc, d_miktar r + acc)%Qc 0%Qc l.

(** Sum of the volumes of the stored depot fills. *)
Definition dolum_toplami (vt : VT) : Qc := dolum_hacmi (depo_dolumlari vt).

(** The depot level minus what the stored rows account for: fills add,
    fuel entries subtract. *)
Definition depo_dengesi (vt : VT) : option Qc :=
  (λ x, x - dolum_toplami vt + hacim_toplami (yakit_kayitlari vt))%Qc
    <$> depo_seviyesi vt.


(** ** Further scenarios *)

Module Senaryo2.
Import Ornek Ornek2 Senaryo.



(** The row the fuel list shows for the second entry of [iki_kayit]. *)
Definition ikinci_satir : YakitSatiri :=
  {| ys_tarih := "25-01-2023 10:00"; ys_plaka := "34ABC01"; ys_km := 1800;
     ys_miktar := Z2Qc 32; ys_notlar := "" |}.

(** Two vehicles with a plate that contains the separator of the combobox
    texts. *)
Definition ayracli_arac (i : Z) : Arac :=
  {| arac_id := i; plaka := "ID:7ID:"; model := "Transit"; mevcut_km := 0;
     model_yili := None; muayene_tarihi := ""; bakim_tarihi := "";
     arac_surucusu := "" |}.



Definition bakim_girisi (s ar i p c tt : string) : BakimGirisi :=
  {| bg_arac := arac1; bg_tarih := "10-03-2023"; bg_saat := s; bg_ariza := ar;
     bg_islem := i; bg_parca_ucreti := p; bg_iscilik_ucreti := c;
     bg_toplam_tutar := tt; bg_notlar := "" |}.

(** Three maintenance records of vehicle 1 entered through the form, all on
    the same day with the same fault description; the total of the third is
    left empty. *)
Definition uc_bakim_girisi : Uygulama :=
  oturum (H:=kutuphane2)
    [ CBakimKaydiEkle (bakim_girisi "09:00" "Fren" "Ayar" "0" "15" "15");
      CBakimKaydiEkle (bakim_girisi "14:00" "Fren" "Balata" "40" "10" "50");
      CBakimKaydiEkle (bakim_girisi "16:00" "Fren" "Disk" "50" "20" "") ]
    iki_kayit.

(** The row of the maintenance list selected for editing. *)
Definition fren_satiri : BakimSatiri :=
  {| bs_tarih := "10-03-2023"; bs_ariza := "Fren"; bs_islem := "Balata";
     bs_tutar := Z2Qc 50 |}.

(** The first of the three records, as stored. *)
Definition ayar_kaydi : BakimKaydi :=
  {| b_kayit_id := 1; b_arac_id := 1; b_tarih := "10-03-2023"; saat := "09:00";
     tespit_edilen_ariza := "Fren"; yapilan_islem := "Ayar";
     parca_ucreti := Z2Qc 0; iscilik_ucreti := Z2Qc 15;
     toplam_tutar := Z2Qc 15; b_notlar := "" |}.

(** The vehicle of [tek_arac], as stored. *)
Definition ilk_arac : Arac :=
  {| arac_id := 1; plaka := "34ABC01"; model := "Transit"; mevcut_km := 1000;
     model_yili := Some 2015; muayene_tarihi := ""; bakim_tarihi := "";
     arac_surucusu := "" |}.




End Senaryo2.

(** * Properties *)

(** ** Arithmetic and aggregates *)

Lemma Z2Qc_sifir (z : Z) : Z2Qc z = 0%Qc → z = 0.
Proof.
  unfold Z2Qc. intros E.
  assert (Q : (inject_Z z == 0)%Q).
  { apply (f_equal this) in E. simpl in E.
    rewrite <- (Qred_correct (inject_Z z)). rewrite E. reflexivity. }
  unfold Qeq in Q. simpl in Q. lia.
Qed.

Lemma foldl_min_ozellik (t : list Z) (x : Z) :
  foldl Z.min x t ∈ x :: t ∧ ∀ y, y ∈ x :: t → foldl Z.min x t ≤ y.
Proof.
  revert x. induction t as [|h t IH]; intros x; simpl.
  - split; [left|]. intros y Hy. apply list_elem_of_singleton in Hy. lia.
  - destruct (IH (Z.min x h)) as [Hin Hle]. split.
    + apply elem_of_cons in Hin as [E|Hin]; [|by do 2 right].
      rewrite E. destruct (Z.min_spec x h) as [[_ ->]|[_ ->]]; [left|right; left].
    + intros y Hy.
      assert (Hm : foldl Z.min (Z.min x h) t ≤ Z.min x h) by (apply Hle; left).
      apply elem_of_cons in Hy as [->|Hy]; [lia|].
      apply elem_of_cons in Hy as [->|Hy]; [lia|].
      apply Hle. by right.
Qed.

Lemma foldl_max_ozellik (t : list Z) (x : Z) :
  foldl Z.max x t ∈ x :: t ∧ ∀ y, y ∈ x :: t → y ≤ foldl Z.max x t.
Proof.
  revert x. induction t as [|h t IH]; intros x; simpl.
  - split; [left|]. intros y Hy. apply list_elem_of_singleton in Hy. lia.
  - destruct (IH (Z.max x h)) as [Hin Hle]. split.
    + apply elem_of_cons in Hin as [E|Hin]; [|by do 2 right].
      rewrite E. destruct (Z.max_spec x h) as [[_ ->]|[_ ->]]; [right; left|left].
    + intros y Hy.
      assert (Hm : Z.max x h ≤ foldl Z.max (Z.max x h) t) by (apply Hle; left).
      apply elem_of_cons in Hy as [->|Hy]; [lia|].
      apply elem_of_cons in Hy as [->|Hy]; [lia|].
      apply Hle. by right.
Qed.

(** [MIN] returns the least value of the column, [MAX] the greatest. *)
Lemma sql_min_en_kucuk (l : list Z) (lo : Z) :
  lo ∈ l → (∀ y, y ∈ l → lo ≤ y) → sql_min l = Some lo.
Proof.
  destruct l as [|x t]; [by intros ?%elem_of_nil|]. intros Hin Hle. simpl. f_equal.
  destruct (foldl_min_ozellik t x) as [Hm Hmle].
  specialize (Hle _ Hm). specialize (Hmle _ Hin). lia.
Qed.

Lemma sql_max_en_buyuk (l : list Z) (hi : Z) :
  hi ∈ l → (∀ y, y ∈ l → y ≤ hi) → sql_max l = Some hi.
Proof.
  destruct l as [|x t]; [by intros ?%elem_of_nil|]. intros Hin Hle. simpl. f_equal.
  destruct (foldl_max_ozellik t x) as [Hm Hmle].
  specialize (Hle _ Hm). specialize (Hmle _ Hin). lia.
Qed.

Lemma foldl_topla (l : list Qc) (acc : Qc) :
  foldl Qcplus acc l = (acc + foldr Qcplus 0 l)%Qc.
Proof.
  revert acc. induction l as [|x l IH]; intros acc; simpl.
  - ring.
  - rewrite IH. ring.
Qed.

Lemma hacim_toplami_foldr (rs : list YakitKaydi) :
  hacim_toplami rs = foldr Qcplus 0%Qc (yakit_miktari <$> rs).
Proof. induction rs as [|r rs IH]; simpl; [done|]. by rewrite IH. Qed.

(** [SUM] over the rows of a non-empty log is the sum of its volumes. *)
Lemma sql_sum_hacim (rs : list YakitKaydi) :
  rs ≠ [] → sql_sum (yakit_miktari <$> rs) = Some (hacim_toplami rs).
Proof.
  destruct rs as [|r rs]; [done|]. intros _.
  unfold sql_sum. rewrite fmap_cons. f_equal.
  rewrite foldl_topla, hacim_toplami_foldr. rewrite fmap_cons. ring.
Qed.

(** ** The statistics as a function of the stored rows *)

Section IstatistikOzellikleri.
Context `{Kutuphane}.

Lemma arac_id_coz_tamam (arac : string) (a : Z) (u : Uygulama) :
  arac_id_degeri arac = Some a → arac_id_coz arac u = (inr a, u).
Proof.
  unfold arac_id_degeri, arac_id_coz.
  destruct (split_ID_1 arac); [|done]. by intros ->.
Qed.

(** A text that names a vehicle is neither empty nor the "all vehicles"
    item of the report combobox. *)
Lemma arac_id_degeri_secim (arac : string) (a : Z) :
  arac_id_degeri arac = Some a →
  bos arac || bool_decide (arac = "Tüm Araçlar") = false.
Proof.
  intros E. apply orb_false_iff. unfold bos.
  split; apply bool_decide_eq_false; intros ->; by vm_compute in E.
Qed.

Lemma bol_tamam (x y : Qc) (u : Uygulama) :
  y ≠ 0%Qc → bol x y u = (inr (x / y)%Qc, u).
Proof. intros Hy. unfold bol. by case_decide. Qed.

Lemma oranlar_toplami_sonuc (veriler : list DonemSatiri) (acc : Qc) (u : Uygulama) :
  (∀ v, v ∈ veriler → bas_km v < son_km v) →
  oranlar_toplami veriler acc u
  = (inr (acc + foldr Qcplus 0 (donem_orani <$> veriler))%Qc, u).
Proof.
  revert acc. induction veriler as [|v t IH]; intros acc Hv; simpl.
  - unfold mret, prog_ret. by replace (acc + Q2Qc 0)%Qc with acc by ring.
  - unfold mbind, prog_bind. rewrite bol_tamam.
    + rewrite IH by (intros w Hw; apply Hv; by right).
      replace (acc + donem_orani v + foldr Qcplus 0 (donem_orani <$> t))%Qc
        with (acc + (donem_orani v + foldr Qcplus 0 (donem_orani <$> t)))%Qc
        by ring.
      done.
    + intros E%Z2Qc_sifir. assert (bas_km v < son_km v) by (apply Hv; left). lia.
Qed.

Lemma donem_ortalamasi_sonuc (veriler : list DonemSatiri) (u : Uygulama) :
  (∀ v, v ∈ veriler → bas_km v < son_km v) →
  donem_ortalamasi veriler u = (inr (donem_etiket veriler), u).
Proof.
  intros Hv. destruct veriler as [|v t]; [done|].
  unfold donem_ortalamasi, donem_etiket, mbind, prog_bind.
  rewrite oranlar_toplami_sonuc by done.
  rewrite bol_tamam; [|by intros E%Z2Qc_sifir].
  unfold mret, prog_ret, aritmetik_ortalama.
  rewrite length_fmap.
  set (toplam := foldr Qcplus 0%Qc (donem_orani <$> v :: t)).
  by replace (0 + toplam)%Qc with toplam by ring.
Qed.

(** Every row that survives [HAVING] has a positive odometer span. *)
Lemma donem_sorgu_gecerli (fmt : string) (a : Z) (vt : VT) (v : DonemSatiri) :
  v ∈ donem_sorgu fmt a vt → bas_km v < son_km v.
Proof.
  unfold donem_sorgu. intros (k & _ & Hk)%list_elem_of_omap.
  unfold donem_satiri in Hk.
  repeat (case_match; try done). injection Hk as <-. simpl. by destruct_and!.
Qed.

(** Once the overall figure is settled: write it, then the two period
    figures, each given by [Hd]. *)
Ltac donemleri_yaz vt Hd :=
  unfold genel_yaz, aylik_yaz, yillik_yaz, etiket_degistir; simpl;
  fold vt; rewrite Hd; simpl; fold vt; by rewrite Hd.

(** With a vehicle chosen, the method never raises: it writes the three
    figures below and shows no message. *)
Lemma hesapla_sonuc (arac : string) (a : Z) (u : Uygulama) :
  arac_id_degeri arac = Some a →
  let vt := calisma (conn u) in
  calistir (yakit_istatistiklerini_hesapla arac) u
  = {| conn := conn u;
       etiketler :=
         {| ortalama_tuketim_label := genel_etiket (arac_kayitlari a vt);
            aylik_ortalama_label := donem_etiket (donem_sorgu "%m-%Y" a vt);
            yillik_ortalama_label := donem_etiket (donem_sorgu "%Y" a vt) |};
       bakim_formu := bakim_formu u;
       mesajlar := mesajlar u |}.
Proof.
  intros Ha vt.
  unfold calistir, yakit_istatistiklerini_hesapla, dene.
  rewrite (arac_id_degeri_secim _ _ Ha).
  unfold mbind, prog_bind. rewrite (arac_id_coz_tamam _ _ _ Ha).
  unfold fetch, genel_sorgu, genel_etiket. fold vt.
  set (rs := arac_kayitlari a vt).
  assert (Hd : ∀ fmt u', donem_ortalamasi (donem_sorgu fmt a vt) u'
                          = (inr (donem_etiket (donem_sorgu fmt a vt)), u')).
  { intros fmt u'. apply donem_ortalamasi_sonuc. intros v. apply donem_sorgu_gecerli. }
  destruct (sql_min (y_km <$> rs)) as [lo|] eqn:Emin;
    destruct (sql_max (y_km <$> rs)) as [hi|] eqn:Emax.
  - case_decide as Hspan.
    + assert (Hrs : rs ≠ []) by (intros E; by rewrite E in Emin).
      rewrite (sql_sum_hacim _ Hrs). unfold mret, prog_ret.
      rewrite bol_tamam by (intros E%Z2Qc_sifir; lia).
      donemleri_yaz vt Hd.
    + donemleri_yaz vt Hd.
  - donemleri_yaz vt Hd.
  - donemleri_yaz vt Hd.
  - donemleri_yaz vt Hd.
Qed.

End IstatistikOzellikleri.

(** ** Overall rate *)

(** C1.  With a vehicle chosen in the report tab, let [lo] and [hi] be the
    least and the greatest odometer reading among its fuel rows.  If
    [lo < hi], the overall figure is the rate
    (sum of all volumes) / (hi - lo) * 100; if [lo = hi] (in particular for
    two or more rows that share one reading) the figure is the
    odometer-error state, not a rate.  The worked example of the
    specification: volumes that add up to 30 + 32 over the span from 1000 to
    1800 give 7.75 L/100km. *)
Theorem genel_ortalama_kurali `{Kutuphane} (arac : string) (a : Z) (u : Uygulama) :
  arac_id_degeri arac = Some a →
  let rs := arac_kayitlari a (calisma (conn u)) in
  let genel :=
    ortalama_tuketim_label
      (etiketler (calistir (yakit_istatistiklerini_hesapla arac) u)) in
  ∀ lo hi : Z,
    lo ∈ y_km <$> rs → hi ∈ y_km <$> rs →
    (∀ k, k ∈ y_km <$> rs → lo ≤ k ≤ hi) →
    (lo < hi → genel = Oran (hacim_toplami rs / Z2Qc (hi - lo) * Z2Qc 100)%Qc)
    ∧ (lo = hi → genel = KmHatasi)
    ∧ (lo = 1000 → hi = 1800 → hacim_toplami rs = (Z2Qc 30 + Z2Qc 32)%Qc →
       genel = Oran (Q2Qc 7.75)).
Proof.
  intros Ha rs genel lo hi Hlo Hhi Hb.
  assert (Hg : genel = genel_etiket rs).
  { unfold genel. by rewrite (hesapla_sonuc _ _ _ Ha). }
  rewrite Hg. unfold genel_etiket.
  rewrite (sql_min_en_kucuk _ lo), (sql_max_en_buyuk _ hi);
    [| done | intros k Hk; by apply Hb | done | intros k Hk; by apply Hb].
  split; [|split].
  - intros Hlt. by rewrite decide_True by lia.
  - intros ->. by rewrite decide_False by lia.
  - intros -> -> ->. rewrite decide_True by lia.
    f_equal. apply Qc_is_canon. by vm_compute.
Qed.

(** Volumes 30 and 32 at odometers 1000 and 1800: 7.75 L/100km.  Volumes 30
    and 32 at the same odometer 1000: odometer error. *)
Lemma genel_ortalama_kurali_tanik :
  ortalama_tuketim_label
    (etiketler (calistir (yakit_istatistiklerini_hesapla Senaryo.arac1)
                  Senaryo.iki_kayit))
  = Oran (Q2Qc 7.75)
  ∧ ortalama_tuketim_label
      (etiketler (calistir (yakit_istatistiklerini_hesapla Senaryo.arac1)
                    Senaryo.ayni_km))
    = KmHatasi.
Proof.
  split.
  - assert (Hk : ∀ k, k ∈ [1000; 1800] → 1000 ≤ k ≤ 1800).
    { intros k Hk. repeat (apply elem_of_cons in Hk as [->|Hk]; [lia|]).
      by apply elem_of_nil in Hk. }
    refine (proj2 (proj2
      (genel_ortalama_kurali (H:=Ornek.kutuphane) Senaryo.arac1 1 Senaryo.iki_kayit
         eq_refl 1000 1800 _ _ Hk)) eq_refl eq_refl _).
    + vm_compute. left.
    + vm_compute. right. left.
    + apply Qc_is_canon. by vm_compute.
  - assert (Hk : ∀ k, k ∈ [1000; 1000] → 1000 ≤ k ≤ 1000).
    { intros k Hk. repeat (apply elem_of_cons in Hk as [->|Hk]; [lia|]).
      by apply elem_of_nil in Hk. }
    refine (proj1 (proj2
      (genel_ortalama_kurali (H:=Ornek.kutuphane) Senaryo.arac1 1 Senaryo.ayni_km
         eq_refl 1000 1000 _ _ Hk)) eq_refl).
    + vm_compute. left.
    + vm_compute. left.
Defined.

(** ** Fewer than two entries *)

Section AzKayit.
Context `{Kutuphane}.



End AzKayit.




(** ** Timestamps the program cannot read *)





(** ** Monthly and yearly figures *)

Lemma filter_hepsi {A} (P : A → Prop) `{∀ x, Decision (P x)} (l : list A) :
  (∀ x, x ∈ l → P x) → filter P l = l.
Proof.
  induction l as [|x l IH]; intros HP; [done|].
  rewrite filter_cons_True by (apply HP; left).
  f_equal. apply IH. intros y Hy. apply HP. by right.
Qed.

Lemma remove_dups_tek {A} `{EqDecision A} (x : A) (l : list A) :
  l ≠ [] → (∀ y, y ∈ l → y = x) → remove_dups l = [x].
Proof.
  induction l as [|y l IH]; intros Hne Hall; [done|].
  assert (y = x) as -> by (apply Hall; left).
  destruct l as [|z l]; [done|].
  assert (z = x) as -> by (apply Hall; right; left).
  change (remove_dups (x :: x :: l))
    with (if decide (x ∈ x :: l) then remove_dups (x :: l)
          else x :: remove_dups (x :: l)).
  rewrite decide_True by left.
  apply IH; [done|]. intros w Hw. apply Hall. by right.
Qed.

Lemma ortalama_tek (x : Qc) : aritmetik_ortalama [x] = x.
Proof.
  unfold aritmetik_ortalama. simpl.
  change (Z2Qc (Z.of_nat 1)) with 1%Qc. field. done.
Qed.

Lemma sql_min_eleman (l : list Z) (lo : Z) : sql_min l = Some lo → lo ∈ l.
Proof.
  destruct l as [|x t]; [done|]. intros [= <-]. apply foldl_min_ozellik.
Qed.

Lemma sql_max_eleman (l : list Z) (hi : Z) : sql_max l = Some hi → hi ∈ l.
Proof.
  destruct l as [|x t]; [done|]. intros [= <-]. apply foldl_max_ozellik.
Qed.

(** When [strftime] reads none of the timestamps of a vehicle, its rows form
    the single NULL period and the period figure is the overall figure
    whenever that one is a rate; otherwise it is "no data". *)
Lemma okunmaz_tarihlerde_tek_donem `{Kutuphane} (fmt : string) (a : Z) (vt : VT) :
  (∀ r, r ∈ arac_kayitlari a vt → strftime fmt (y_tarih r) = None) →
  donem_etiket (donem_sorgu fmt a vt)
  = match genel_etiket (arac_kayitlari a vt) with
    | Oran q => Oran q
    | _ => VeriYok
    end.
Proof.
  intros Hnull. set (rs := arac_kayitlari a vt) in *.
  destruct rs as [|r0 rs0] eqn:Ers.
  { unfold donem_sorgu. fold rs. by rewrite Ers. }
  rewrite <- Ers in *.
  assert (Hne : rs ≠ []) by (by rewrite Ers).
  assert (Hsorgu : donem_sorgu fmt a vt
                   = match donem_satiri fmt a vt None with
                     | Some v => [v]
                     | None => []
                     end).
  { unfold donem_sorgu. fold rs.
    rewrite (remove_dups_tek None).
    - done.
    - by rewrite Ers.
    - intros k (r & -> & Hr)%list_elem_of_fmap. by apply Hnull. }
  rewrite Hsorgu. unfold donem_satiri, donem_kayitlari. fold rs.
  rewrite (filter_hepsi _ rs) by done.
  unfold genel_etiket. rewrite (sql_sum_hacim _ Hne).
  destruct (sql_min (y_km <$> rs)) as [lo|] eqn:Emin; [|done].
  destruct (sql_max (y_km <$> rs)) as [hi|] eqn:Emax; [|done].
  destruct (decide (0 < hi - lo)) as [Hspan|Hspan].
  - rewrite decide_True.
    + unfold donem_etiket. rewrite fmap_cons, fmap_nil, ortalama_tek. done.
    + split; [lia|].
      apply sql_min_eleman in Emin. apply sql_max_eleman in Emax.
      rewrite Ers in *. destruct rs0 as [|r1 rs1]; [|simpl; lia].
      apply list_elem_of_singleton in Emin, Emax. simpl in *. lia.
  - by rewrite decide_False by lia.
Qed.

(** In the concrete library, a timestamp the fuel form accepts is never a
    time value for SQLite: its third character is the dash after the day. *)
Lemma form_tarihi_okunmaz (s fmt : string) :
  Ornek.ornek_strptime s "%d-%m-%Y %H:%M" = true →
  Ornek.sqlite_strftime fmt s = None.
Proof.
  intros Hs. unfold Ornek.ornek_strptime in Hs.
  apply andb_true_iff in Hs as [_ Hs].
  destruct s as [|c1 [|c2 [|c3 r]]]; simpl in Hs;
    repeat (case_match; try done).
  all: subst.
  all: unfold Ornek.sqlite_strftime, Ornek.sqlite_tarih, Ornek.sqlite_saat; simpl.
  all: repeat (case_match; simplify_eq; try done).
Qed.

(** In the concrete library: when every fuel row of the chosen vehicle
    carries a timestamp the fuel form accepts, the monthly and the yearly
    figure both repeat the overall figure (or show "no data" when that one
    is not a rate). *)
Lemma form_tarihleriyle_donem_yok (arac : string) (a : Z) (u : Uygulama) :
  arac_id_degeri (H:=Ornek.kutuphane) arac = Some a →
  (∀ r, r ∈ arac_kayitlari a (calisma (conn u)) →
        Ornek.ornek_strptime (y_tarih r) "%d-%m-%Y %H:%M" = true) →
  let e := etiketler (calistir
             (yakit_istatistiklerini_hesapla (H:=Ornek.kutuphane) arac) u) in
  let tekrar := match ortalama_tuketim_label e with
                | Oran q => Oran q
                | _ => VeriYok
                end in
  aylik_ortalama_label e = tekrar ∧ yillik_ortalama_label e = tekrar.
Proof.
  intros Ha Hform e tekrar. unfold tekrar, e.
  rewrite (hesapla_sonuc _ _ _ Ha). simpl.
  split; apply (okunmaz_tarihlerde_tek_donem (H:=Ornek.kutuphane));
    intros r Hr; apply form_tarihi_okunmaz; by apply Hform.
Qed.

(** C2, at a log written through the fuel form.  January holds 10 L over
    200 km (5 L/100km), February 7 L over 100 km (7 L/100km).  The four
    entries were accepted by [yakit_ekle]; SQLite's [strftime] reads none of
    their day-first timestamps, so the grouped query returns one row, the
    NULL period, spanning the whole log, and the monthly figure is
    17 / 1100 * 100 = 17/11 instead of the mean 6 of the two monthly rates. *)
Theorem aylik_ortalama_tek_donem :
  mesajlar Senaryo.iki_ay
  = [Basarili; Basarili; Basarili; Basarili; Basarili; Basarili]
  ∧ strftime (Kutuphane:=Ornek.kutuphane) "%m-%Y" <$>
      (y_tarih <$> yakit_kayitlari (calisma (conn Senaryo.iki_ay)))
    = [None; None; None; None]
  ∧ donem_sorgu (H:=Ornek.kutuphane) "%m-%Y" 1 (calisma (conn Senaryo.iki_ay))
    = [ {| donem := None; bas_km := 1000; son_km := 2100; yakit := Z2Qc 17 |} ]
  ∧ aylik_ortalama_label
      (etiketler (calistir
         (yakit_istatistiklerini_hesapla (H:=Ornek.kutuphane) Senaryo.arac1)
         Senaryo.iki_ay))
    = Oran (Q2Qc (17 # 11))
  ∧ Oran (Q2Qc (17 # 11)) ≠ Oran (Z2Qc 6).
Proof.
  split; [by vm_compute|]. split; [by vm_compute|].
  split; [apply (bool_decide_unpack _); by vm_compute|].
  split; [apply (bool_decide_unpack _); by vm_compute|].
  intros E. vm_compute in E. congruence.
Qed.

(** The same four entries stored with ISO-8601 timestamps: two periods with
    the rates 5 and 7, and the monthly figure is their mean 6. *)
Lemma aylik_ortalama_iso :
  donem_orani <$>
    donem_sorgu (H:=Ornek.kutuphane) "%m-%Y" 1 (calisma (conn Senaryo.iki_ay_iso))
  = [Z2Qc 5; Z2Qc 7]
  ∧ donem <$>
      donem_sorgu (H:=Ornek.kutuphane) "%m-%Y" 1 (calisma (conn Senaryo.iki_ay_iso))
    = [Some "01-2023"; Some "02-2023"]
  ∧ aylik_ortalama_label
      (etiketler (calistir
         (yakit_istatistiklerini_hesapla (H:=Ornek.kutuphane) Senaryo.arac1)
         Senaryo.iki_ay_iso))
    = Oran (Z2Qc 6).
Proof.
  split; [apply (bool_decide_unpack _); by vm_compute|].
  split; [by vm_compute|].
  apply (bool_decide_unpack _); by vm_compute.
Qed.

(** ** Fuel entries and the depot *)

Lemma depo_seviyesi_update_depo (d : Qc) (vt : VT) :
  depo_seviyesi (update_depo d vt) = (λ x, (x + d)%Qc) <$> depo_seviyesi vt.
Proof.
  unfold depo_seviyesi, update_depo, depo_degistir. simpl.
  induction (depo vt) as [|r l IH]; [done|].
  rewrite fmap_cons, !filter_cons.
  destruct (decide (depo_id r = 1)) as [E|E]; simpl.
  - by rewrite decide_True by done.
  - by rewrite decide_False by done.
Qed.



Section YakitOzellikleri.
Context `{Kutuphane}.

(** What a valid submission of the fuel form does. *)
Lemma yakit_ekle_sonuc (g : YakitGirisi) (a k : Z) (v : Qc) (u : Uygulama) :
  yakit_girisi_gecerli g a k v →
  let vt' :=
    update_depo (- v)%Qc
      (update_mevcut_km k a
         (insert_yakit a k v (py_strip (yakit_not_entry g))
            (py_strip (yakit_tarih_entry g)) (calisma (conn u)))) in
  calistir (yakit_ekle g) u
  = {| conn := {| kalici := vt'; calisma := vt' |};
       etiketler := etiketler u;
       bakim_formu := bakim_formu u;
       mesajlar := Basarili :: mesajlar u |}.
Proof.
  intros (Ha & Hk & Hm & Ht & Ek & Ev & Hk0 & Hv0 & Hd) vt'.
  pose proof (arac_id_degeri_secim _ _ Ha) as [Harac _]%orb_false_iff.
  unfold calistir, yakit_ekle, bos in *.
  rewrite Harac, !bool_decide_eq_false_2 by done. simpl.
  unfold dene, mbind, prog_bind, int, float, tarih_kontrol.
  rewrite (arac_id_coz_tamam _ _ _ Ha), Ek, Ev, Hd. simpl.
  rewrite decide_False; [done|].
  intros [?|Hle]; [lia|]. by apply Qcle_not_lt in Hle.
Qed.

(** What a confirmed deletion of a fuel row does, when the plate shown in
    the row belongs to a stored vehicle. *)
Lemma yakit_kaydi_sil_sonuc (kayit : YakitSatiri) (a : Z) (u : Uygulama) :
  select_arac_id (ys_plaka kayit) (calisma (conn u)) = Some a →
  let vt' :=
    update_depo (ys_miktar kayit)
      (delete_yakit_kaydi a (ys_tarih kayit) (ys_km kayit) (calisma (conn u))) in
  calistir (yakit_kaydi_sil (Some kayit) true) u
  = {| conn := {| kalici := vt'; calisma := vt' |};
       etiketler := etiketler u;
       bakim_formu := bakim_formu u;
       mesajlar := Basarili :: mesajlar u |}.
Proof.
  intros Ea vt'. unfold calistir, yakit_kaydi_sil. simpl.
  unfold dene, mbind, prog_bind, fetch. by rewrite Ea.
Qed.


(** The vehicle table after a valid submission of the fuel form. *)
Lemma yakit_ekle_araclar (g : YakitGirisi) (a k : Z) (v : Qc) (u : Uygulama) :
  yakit_girisi_gecerli g a k v →
  araclar (calisma (conn (calistir (yakit_ekle g) u)))
  = (λ r, if decide (arac_id r = a) then km_yaz k r else r)
      <$> araclar (calisma (conn u)).
Proof. intros Hg. by rewrite (yakit_ekle_sonuc _ _ _ _ _ Hg). Qed.

Lemma yakit_ekle_km_yazar (g : YakitGirisi) (a k : Z) (v : Qc) (u : Uygulama) (r : Arac) :
  yakit_girisi_gecerli g a k v →
  r ∈ araclar (calisma (conn u)) → arac_id r = a →
  km_yaz k r ∈ araclar (calisma (conn (calistir (yakit_ekle g) u))).
Proof.
  intros Hg Hr Er. rewrite (yakit_ekle_araclar _ _ _ _ _ Hg).
  apply list_elem_of_fmap. exists r. split; [|done].
  by rewrite decide_True by done.
Qed.

End YakitOzellikleri.





(** C7.  Whatever row is selected and whatever the dialog answers,
    [yakit_kaydi_sil] leaves the vehicle table, hence every recorded
    odometer, as it was; the maintenance table, the depot-fill table and the
    row counters are untouched as well.  When it deletes (the plate of the
    row belongs to the vehicle id [a]) the fuel table loses the rows with
    that vehicle, timestamp and odometer, and the depot row gains the
    volume.  In particular, after a valid entry with odometer [k] has been
    written and deleted again, the vehicle still carries [k]. *)
Theorem yakit_sil_kilometreyi_geri_almaz `{Kutuphane}
    (secili : option YakitSatiri) (onay : bool) (u : Uygulama) :
  let vt := calisma (conn u) in
  let vt' := calisma (conn (calistir (yakit_kaydi_sil secili onay) u)) in
  araclar vt' = araclar vt
  ∧ bakim_tamirat vt' = bakim_tamirat vt
  ∧ depo_dolumlari vt' = depo_dolumlari vt
  ∧ sira vt' = sira vt
  ∧ (∀ kayit a,
       secili = Some kayit → onay = true →
       select_arac_id (ys_plaka kayit) vt = Some a →
       yakit_kayitlari vt'
       = filter (λ r, ¬ (y_arac_id r = a ∧ y_tarih r = ys_tarih kayit
                         ∧ y_km r = ys_km kayit)) (yakit_kayitlari vt)
       ∧ depo vt' = depo (update_depo (ys_miktar kayit) vt))
  ∧ (∀ (g : YakitGirisi) (a : Arac) (k : Z) (v : Qc),
       yakit_girisi_gecerli g (arac_id a) k v →
       a ∈ araclar vt →
       secili = Some (girilen_satir g a k v) →
       km_yaz k a
       ∈ araclar (calisma (conn (calistir (yakit_kaydi_sil secili onay)
                                   (calistir (yakit_ekle g) u))))).
Proof.
  intros vt vt'.
  assert (Hsabit : ∀ u0,
    let w := calisma (conn (calistir (yakit_kaydi_sil secili onay) u0)) in
    araclar w = araclar (calisma (conn u0))
    ∧ bakim_tamirat w = bakim_tamirat (calisma (conn u0))
    ∧ depo_dolumlari w = depo_dolumlari (calisma (conn u0))
    ∧ sira w = sira (calisma (conn u0))).
  { intros u0. cbv zeta. destruct secili as [kayit|]; [|done].
    destruct onay; [|done].
    destruct (select_arac_id (ys_plaka kayit) (calisma (conn u0))) as [a|] eqn:Ea.
    - by rewrite (yakit_kaydi_sil_sonuc _ _ _ Ea).
    - unfold calistir, yakit_kaydi_sil, dene, mbind, prog_bind, fetch. simpl.
      by rewrite Ea. }
  destruct (Hsabit u) as (Ha & Hb & Hd & Hs).
  split; [done|]. split; [done|]. split; [done|]. split; [done|]. split.
  - intros kayit a -> -> Ea. unfold vt'.
    by rewrite (yakit_kaydi_sil_sonuc _ _ _ Ea).
  - intros g a k v Hg Hin _.
    destruct (Hsabit (calistir (yakit_ekle g) u)) as (-> & _).
    by apply (yakit_ekle_km_yazar g (arac_id a) k v).
Qed.

(** Vehicle 1 is recorded at 1000 km; an entry at 1400 km is written and
    deleted again: the vehicle stays at 1400 km. *)
Lemma yakit_sil_kilometreyi_geri_almaz_tanik :
  mevcut_km <$>
    araclar (calisma (conn (calistir
      (yakit_kaydi_sil
         (Some {| ys_tarih := "05-01-2023 10:00"; ys_plaka := "34ABC01";
                  ys_km := 1400; ys_miktar := Z2Qc 30; ys_notlar := "" |})
         true)
      (calistir
         (yakit_ekle (Senaryo.yakit_girisi Senaryo.arac1 "1400" "30" "05-01-2023 10:00"))
         Senaryo.dolu_depo))))
  = [1400]
  ∧ mevcut_km <$> araclar (calisma (conn Senaryo.dolu_depo)) = [1000].
Proof.
  split; [|by vm_compute].
  rewrite (proj1 (yakit_sil_kilometreyi_geri_almaz (H:=Ornek.kutuphane) _ true _)).
  by vm_compute.
Defined.

(** ** Vehicles *)




Lemma arac_sil_sonuc `{Kutuphane} (p : string) (a : Z) (u : Uygulama) :
  select_arac_id p (calisma (conn u)) = Some a →
  let vt' :=
    delete_arac a (delete_bakim_arac a (delete_yakit_arac a (calisma (conn u)))) in
  calistir (arac_sil (Some p) true) u
  = {| conn := {| kalici := vt'; calisma := vt' |};
       etiketler := etiketler u;
       bakim_formu := bakim_formu u;
       mesajlar := Basarili :: mesajlar u |}.
Proof.
  intros Ea vt'. unfold calistir, arac_sil. simpl.
  unfold dene, mbind, prog_bind, fetch. by rewrite Ea.
Qed.

(** C9.  A confirmed deletion of the vehicle whose plate is selected (the
    plate belonging to the stored vehicle id [a]) removes the vehicle row,
    every fuel row and every maintenance row of that id, keeps every other
    row, and commits: afterwards no row of the three tables carries the
    id. *)
Theorem arac_sil_kayitlari_da_siler `{Kutuphane} (p : string) (a : Z) (u : Uygulama) :
  select_arac_id p (calisma (conn u)) = Some a →
  let vt := calisma (conn u) in
  let u' := calistir (arac_sil (Some p) true) u in
  let vt' := calisma (conn u') in
  araclar vt' = filter (λ r, arac_id r ≠ a) (araclar vt)
  ∧ yakit_kayitlari vt' = filter (λ r, y_arac_id r ≠ a) (yakit_kayitlari vt)
  ∧ bakim_tamirat vt' = filter (λ r, b_arac_id r ≠ a) (bakim_tamirat vt)
  ∧ (∀ r, r ∈ araclar vt' → arac_id r ≠ a)
  ∧ (∀ r, r ∈ yakit_kayitlari vt' → y_arac_id r ≠ a)
  ∧ (∀ r, r ∈ bakim_tamirat vt' → b_arac_id r ≠ a)
  ∧ kalici (conn u') = vt'
  ∧ mesajlar u' = Basarili :: mesajlar u.
Proof.
  intros Ea vt u' vt'. unfold vt', u'. rewrite (arac_sil_sonuc _ _ _ Ea). simpl.
  fold vt.
  split; [done|]. split; [done|]. split; [done|].
  split; [|split; [|split]].
  - by intros r [? _]%list_elem_of_filter.
  - by intros r [? _]%list_elem_of_filter.
  - by intros r [? _]%list_elem_of_filter.
  - done.
Qed.

(** Vehicle 1 with two fuel rows and three maintenance records is deleted:
    the three tables are empty afterwards, on disk too. *)
Lemma arac_sil_kayitlari_da_siler_tanik :
  araclar (kalici (conn (calistir (arac_sil (Some "34ABC01") true) Senaryo.uc_bakim)))
  = []
  ∧ yakit_kayitlari
      (kalici (conn (calistir (arac_sil (Some "34ABC01") true) Senaryo.uc_bakim)))
    = []
  ∧ bakim_tamirat
      (kalici (conn (calistir (arac_sil (Some "34ABC01") true) Senaryo.uc_bakim)))
    = [].
Proof.
  assert (Ea : select_arac_id "34ABC01" (calisma (conn Senaryo.uc_bakim)) = Some 1)
    by (by vm_compute).
  destruct (arac_sil_kayitlari_da_siler (H:=Ornek.kutuphane) _ _ _ Ea)
    as (Har & Hy & Hb & _ & _ & _ & Hk & _).
  rewrite Hk, Har, Hy, Hb. by vm_compute.
Defined.

(** ** Maintenance records *)

(** C10.  With a vehicle chosen (id [a]) and a row selected whose date and
    fault description match a stored record of that vehicle,
    [bakim_kaydi_duzenle] copies the first matching record into the form,
    deletes every record with that vehicle, date and fault description, and
    commits.  It inserts nothing: the committed table is the old one without
    the matching records, and it shows no message.  Unless the form is
    submitted again the records are gone. *)
Theorem bakim_duzenle_once_siler `{Kutuphane}
    (arac : string) (a : Z) (kayit : BakimSatiri) (d : BakimKaydi) (u : Uygulama) :
  arac_id_degeri arac = Some a →
  d ∈ bakim_tamirat (calisma (conn u)) →
  bakim_eslesir a (bs_tarih kayit) (bs_ariza kayit) d →
  let vt := calisma (conn u) in
  let u' := calistir (bakim_kaydi_duzenle arac (Some kayit)) u in
  bakim_tamirat (kalici (conn u'))
  = filter (λ r, ¬ bakim_eslesir a (bs_tarih kayit) (bs_ariza kayit) r)
      (bakim_tamirat vt)
  ∧ calisma (conn u') = kalici (conn u')
  ∧ (∀ r, r ∈ bakim_tamirat (kalici (conn u')) →
          r ∈ bakim_tamirat vt
          ∧ ¬ bakim_eslesir a (bs_tarih kayit) (bs_ariza kayit) r)
  ∧ (length (bakim_tamirat (kalici (conn u'))) < length (bakim_tamirat vt))%nat
  ∧ araclar (kalici (conn u')) = araclar vt
  ∧ yakit_kayitlari (kalici (conn u')) = yakit_kayitlari vt
  ∧ depo (kalici (conn u')) = depo vt
  ∧ mesajlar u' = mesajlar u
  ∧ (∃ d0, select_bakim_detay a (bs_tarih kayit) (bs_ariza kayit) vt = Some d0
           ∧ bakim_tarih_entry (bakim_formu u') = b_tarih d0
           ∧ bakim_saat_entry (bakim_formu u') = saat d0
           ∧ bakim_ariza_entry (bakim_formu u') = tespit_edilen_ariza d0
           ∧ bakim_islem_entry (bakim_formu u') = yapilan_islem d0).
Proof.
  intros Ha Hd Hm vt u'.
  assert (Hf : d ∈ filter (bakim_eslesir a (bs_tarih kayit) (bs_ariza kayit))
                     (bakim_tamirat vt)) by (by apply list_elem_of_filter).
  destruct (select_bakim_detay a (bs_tarih kayit) (bs_ariza kayit) vt)
    as [d0|] eqn:Ed0.
  2:{ unfold select_bakim_detay in Ed0.
      destruct (filter _ _); [by apply elem_of_nil in Hf|done]. }
  assert (Hu : u' = {| conn := {| kalici := delete_bakim_kaydi a (bs_tarih kayit)
                                              (bs_ariza kayit) vt;
                                  calisma := delete_bakim_kaydi a (bs_tarih kayit)
                                               (bs_ariza kayit) vt |};
                       etiketler := etiketler u;
                       bakim_formu :=
                         {| bakim_tarih_entry := b_tarih d0;
                            bakim_saat_entry := saat d0;
                            bakim_ariza_entry := tespit_edilen_ariza d0;
                            bakim_islem_entry := yapilan_islem d0;
                            bakim_parca_ucreti_entry := parca_ucreti d0;
                            bakim_iscilik_ucreti_entry := iscilik_ucreti d0;
                            bakim_toplam_tutar_entry := toplam_tutar d0;
                            bakim_notlar_entry := b_notlar d0 |};
                       mesajlar := mesajlar u |}).
  { unfold u', calistir, bakim_kaydi_duzenle, dene, mbind, prog_bind.
    rewrite (arac_id_coz_tamam _ _ _ Ha). unfold fetch. fold vt. by rewrite Ed0. }
  rewrite Hu. simpl.
  split; [done|]. split; [done|]. split; [|split].
  - intros r [? ?]%list_elem_of_filter. done.
  - by apply (length_filter_lt _ _ d); [|intros Hn; apply Hn].
  - repeat (split; [done|]). by exists d0.
Qed.

(** Two of the three records of vehicle 1 share date and fault description;
    editing the row shown for one of them leaves the third record only. *)
Lemma bakim_duzenle_once_siler_tanik :
  yapilan_islem <$>
    bakim_tamirat (kalici (conn (calistir
      (bakim_kaydi_duzenle Senaryo.arac1 (Some (bakim_satiri Senaryo.balata)))
      Senaryo.uc_bakim)))
  = ["Disk"]
  ∧ yapilan_islem <$> bakim_tamirat (kalici (conn Senaryo.uc_bakim))
    = ["Ayar"; "Balata"; "Disk"].
Proof.
  split; [|by vm_compute].
  rewrite (proj1 (bakim_duzenle_once_siler (H:=Ornek.kutuphane) Senaryo.arac1 1
    (bakim_satiri Senaryo.balata) Senaryo.balata Senaryo.uc_bakim eq_refl
    ltac:(apply (bool_decide_unpack _); by vm_compute)
    ltac:(by vm_compute))).
  by vm_compute.
Defined.

(** ** The connection between two methods *)

Section BaglantiDurumu.
Context `{Kutuphane}.



End BaglantiDurumu.

(** * Further properties *)


(** ** Start-up *)

Lemma depo_seviyesi_var (vt : VT) :
  is_Some (depo_seviyesi vt) ↔ 1 ∈ depo_id <$> depo vt.
Proof.
  unfold depo_seviyesi. split.
  - intros [x Hx]. destruct (head _) as [r|] eqn:Er; [|done].
    apply head_Some_elem_of, list_elem_of_filter in Er as [E Hr].
    apply list_elem_of_fmap. by exists r.
  - intros (r & E & Hr)%list_elem_of_fmap.
    assert (Hf : r ∈ filter (λ r, depo_id r = 1) (depo vt))
      by (by apply list_elem_of_filter).
    destruct (filter _ _) as [|r' l]; [by apply elem_of_nil in Hf|]. by eexists.
Qed.

(** X1.  [initialize_database] leaves a depot level that is defined.  A level
    that was defined before is kept, with the whole database: starting the
    program again never resets the depot.  Without a depot row the level
    becomes 0.  The result is committed, nothing is shown, and a second run
    changes nothing. *)
Theorem baslatma_depoyu_korur (u : Uygulama) :
  let u' := calistir initialize_database u in
  is_Some (depo_seviyesi (calisma (conn u')))
  ∧ (∀ X, depo_seviyesi (calisma (conn u)) = Some X →
          calisma (conn u') = calisma (conn u)
          ∧ depo_seviyesi (calisma (conn u')) = Some X)
  ∧ (depo_seviyesi (calisma (conn u)) = None →
     depo_seviyesi (calisma (conn u')) = Some 0%Qc
     ∧ depo_dolumlari (calisma (conn u')) = depo_dolumlari (calisma (conn u))
     ∧ yakit_kayitlari (calisma (conn u')) = yakit_kayitlari (calisma (conn u))
     ∧ araclar (calisma (conn u')) = araclar (calisma (conn u)))
  ∧ kalici (conn u') = calisma (conn u')
  ∧ mesajlar u' = mesajlar u
  ∧ calistir initialize_database u' = u'.
Proof.
  intros u'.
  assert (Hu : u' = {| conn := {| kalici := insert_or_ignore_depo (calisma (conn u));
                                  calisma := insert_or_ignore_depo (calisma (conn u)) |};
                       etiketler := etiketler u; bakim_formu := bakim_formu u;
                       mesajlar := mesajlar u |}) by done.
  assert (Hvar : ∀ vt, 1 ∈ depo_id <$> depo (insert_or_ignore_depo vt)).
  { intros vt. unfold insert_or_ignore_depo. case_bool_decide as E; [done|].
    simpl. rewrite fmap_app. apply elem_of_app. right. simpl. left. }
  assert (Hayni : ∀ vt, 1 ∈ depo_id <$> depo vt → insert_or_ignore_depo vt = vt).
  { intros vt E. unfold insert_or_ignore_depo. by rewrite bool_decide_eq_true_2. }
  rewrite Hu. simpl. split; [|split; [|split; [|split; [|split]]]]; try done.
  - by apply depo_seviyesi_var.
  - intros X HX. rewrite Hayni; [done|]. apply depo_seviyesi_var. by eexists.
  - intros Hyok. unfold insert_or_ignore_depo.
    rewrite bool_decide_eq_false_2.
    + split; [|done]. unfold depo_seviyesi in *. simpl. rewrite filter_app.
      destruct (filter _ (depo _)); [done|discriminate Hyok].
    + intros E%depo_seviyesi_var. rewrite Hyok in E. by destruct E.
  - unfold calistir, initialize_database, dene, mbind, prog_bind, execute,
      commit, conn_degistir. simpl. by rewrite Hayni.
Qed.

Lemma baslatma_depoyu_korur_tanik :
  depo_seviyesi (calisma (conn (calistir initialize_database
                                  (Senaryo.uygulama yeni_vt)))) = Some 0%Qc
  ∧ depo_seviyesi (calisma (conn (calistir initialize_database Senaryo.dolu_depo)))
    = Some (Z2Qc 100).
Proof.
  split.
  - destruct (baslatma_depoyu_korur (Senaryo.uygulama yeni_vt))
      as (_ & _ & Hyok & _).
    by apply Hyok.
  - destruct (baslatma_depoyu_korur Senaryo.dolu_depo) as (_ & Hvar & _).
    apply Hvar. apply (bool_decide_unpack _). by vm_compute.
Defined.

(** ** Properties kept by every method *)

Section Korur.
Context {P : VT → Prop}.













End Korur.




(** *** What the SQL statements keep *)




Lemma araclar_duzgun_ayni (vt vt' : VT) :
  araclar vt' = araclar vt →
  sira_araclar (sira vt') = sira_araclar (sira vt) →
  araclar_duzgun vt → araclar_duzgun vt'.
Proof. unfold araclar_duzgun. by intros -> ->. Qed.










(** ** Errors and changes *)







(** ** The depot *)


Lemma depo_dolum_sil_sonuc (kayit : DepoSatiri) (u : Uygulama) :
  let vt' :=
    delete_dolum (ds_tarih kayit) (ds_miktar kayit)
      (update_depo (- ds_miktar kayit)%Qc (calisma (conn u))) in
  calistir (depo_dolum_sil (Some kayit) true) u
  = {| conn := {| kalici := vt'; calisma := vt' |};
       etiketler := etiketler u;
       bakim_formu := bakim_formu u;
       mesajlar := Basarili :: mesajlar u |}.
Proof. done. Qed.

Lemma filter_degil_hepsi {A} (P : A → Prop) `{∀ x, Decision (P x)} (l : list A) :
  (∀ x, x ∈ l → ¬ P x) → filter (λ x, ¬ P x) l = l.
Proof.
  induction l as [|x l IH]; intros Hl; [done|].
  rewrite filter_cons, decide_True by (apply Hl; left).
  f_equal. apply IH. intros y Hy. apply Hl. by right.
Qed.



Lemma dolum_hacmi_ayir (P : DepoDolumu → Prop) `{∀ r, Decision (P r)}
    (l : list DepoDolumu) :
  dolum_hacmi l = (dolum_hacmi (filter P l) + dolum_hacmi (filter (λ r, ¬ P r) l))%Qc.
Proof.
  induction l as [|r l IH]; [by apply Qc_is_canon|].
  rewrite !filter_cons. destruct (decide (P r)) as [Hr|Hr].
  - rewrite decide_False by (intros Hn; by apply Hn). simpl. rewrite IH. ring.
  - rewrite decide_True by done. simpl. rewrite IH. ring.
Qed.

(** X5.  A confirmed [depo_dolum_sil] lowers the depot level by the volume of
    the selected row exactly once and deletes every stored fill with the
    row's timestamp and volume, however many there are: none (the level is
    lowered all the same), one, or several.  The balance of level against
    stored fills moves by the volume of the deleted fills minus the volume
    of the row.  Fuel entries and vehicles are untouched; declining the
    confirmation changes nothing. *)
Theorem depo_dolum_sil_denetimsiz (kayit : DepoSatiri) (X : Qc) (u : Uygulama) :
  depo_seviyesi (calisma (conn u)) = Some X →
  let vt := calisma (conn u) in
  let u' := calistir (depo_dolum_sil (Some kayit) true) u in
  let vt' := calisma (conn u') in
  let eslesen :=
    filter (λ r, d_tarih r = ds_tarih kayit ∧ d_miktar r = ds_miktar kayit)
      (depo_dolumlari vt) in
  depo_seviyesi vt' = Some (X - ds_miktar kayit)%Qc
  ∧ depo_dolumlari vt'
    = filter (λ r, ¬ (d_tarih r = ds_tarih kayit ∧ d_miktar r = ds_miktar kayit))
        (depo_dolumlari vt)
  ∧ (eslesen = [] → depo_dolumlari vt' = depo_dolumlari vt)
  ∧ depo_dengesi vt'
    = (λ d, d + (dolum_hacmi eslesen - ds_miktar kayit))%Qc <$> depo_dengesi vt
  ∧ yakit_kayitlari vt' = yakit_kayitlari vt
  ∧ araclar vt' = araclar vt
  ∧ kalici (conn u') = vt'
  ∧ mesajlar u' = Basarili :: mesajlar u
  ∧ calistir (depo_dolum_sil (Some kayit) false) u = u.
Proof.
  intros HX vt u' vt' eslesen.
  assert (E := depo_dolum_sil_sonuc kayit u). cbv zeta in E. fold u' vt in E.
  assert (Evt : vt' = delete_dolum (ds_tarih kayit) (ds_miktar kayit)
                        (update_depo (- ds_miktar kayit)%Qc vt))
    by (unfold vt'; by rewrite E).
  assert (Hs : depo_seviyesi vt' = Some (X - ds_miktar kayit)%Qc).
  { rewrite Evt.
    change (depo_seviyesi (update_depo (- ds_miktar kayit)%Qc vt)
            = Some (X - ds_miktar kayit)%Qc).
    rewrite depo_seviyesi_update_depo. unfold vt. by rewrite HX. }
  split; [exact Hs|]. split; [by rewrite Evt|]. split; [|split].
  - intros Hyok. rewrite Evt. simpl. apply filter_degil_hepsi.
    intros r Hr Hm.
    assert (Hin : r ∈ eslesen) by (by apply list_elem_of_filter).
    rewrite Hyok in Hin. by apply elem_of_nil in Hin.
  - unfold depo_dengesi. rewrite Hs. fold vt in HX. rewrite HX. simpl.
    f_equal. unfold dolum_toplami.
    rewrite (dolum_hacmi_ayir
               (λ r, d_tarih r = ds_tarih kayit ∧ d_miktar r = ds_miktar kayit)
               (depo_dolumlari vt)).
    fold eslesen. rewrite Evt. simpl. unfold vt. ring.
  - rewrite Evt. split; [done|]. split; [done|]. split; [by rewrite E|].
    split; [by rewrite E|]. by destruct u.
Qed.

Lemma depo_dolum_sil_denetimsiz_tanik :
  let u' :=
    calistir
      (depo_dolum_sil
         (Some {| ds_tarih := "02-01-2023 08:00"; ds_miktar := Z2Qc 40;
                  ds_notlar := "" |}) true)
      Senaryo.dolu_depo in
  depo_seviyesi (calisma (conn u')) = Some (Z2Qc 100 - Z2Qc 40)%Qc
  ∧ depo_dolumlari (calisma (conn u'))
    = depo_dolumlari (calisma (conn Senaryo.dolu_depo)).
Proof.
  assert (HX : depo_seviyesi (calisma (conn Senaryo.dolu_depo)) = Some (Z2Qc 100))
    by (apply (bool_decide_unpack _); by vm_compute).
  destruct (depo_dolum_sil_denetimsiz
              {| ds_tarih := "02-01-2023 08:00"; ds_miktar := Z2Qc 40; ds_notlar := "" |}
              _ Senaryo.dolu_depo HX) as (Hs & _ & Hd & _).
  split; [exact Hs|]. apply Hd. by vm_compute.
Defined.

(** *** The balance of the depot *)













Lemma hacim_toplami_ayir (P : YakitKaydi → Prop) `{∀ r, Decision (P r)}
    (l : list YakitKaydi) :
  hacim_toplami l
  = (hacim_toplami (filter P l) + hacim_toplami (filter (λ r, ¬ P r) l))%Qc.
Proof.
  induction l as [|r l IH]; [by apply Qc_is_canon|].
  rewrite !filter_cons. destruct (decide (P r)) as [Hr|Hr].
  - rewrite decide_False by (intros Hn; by apply Hn).
    unfold hacim_toplami in *. simpl. rewrite IH. ring.
  - rewrite decide_True by done.
    unfold hacim_toplami in *. simpl. rewrite IH. ring.
Qed.

(** X7.  Deleting a vehicle gives nothing back to the depot.  A confirmed
    [arac_sil] of a stored plate leaves the depot row and the depot fills as
    they are while the fuel entries of the vehicle disappear, so the balance
    of the depot drops by the volume those entries recorded; deleting the
    same entries one by one with [yakit_kaydi_sil] would have raised the
    level by that volume.  The AUTOINCREMENT counters stay, so the id is not
    given out again. *)
Theorem arac_sil_iade_etmez `{Kutuphane} (p : string) (a : Z) (u : Uygulama) :
  select_arac_id p (calisma (conn u)) = Some a →
  let vt := calisma (conn u) in
  let vt' := calisma (conn (calistir (arac_sil (Some p) true) u)) in
  depo vt' = depo vt
  ∧ depo_seviyesi vt' = depo_seviyesi vt
  ∧ depo_dolumlari vt' = depo_dolumlari vt
  ∧ (hacim_toplami (yakit_kayitlari vt') + hacim_toplami (arac_kayitlari a vt))%Qc
    = hacim_toplami (yakit_kayitlari vt)
  ∧ depo_dengesi vt'
    = (λ d, d - hacim_toplami (arac_kayitlari a vt))%Qc <$> depo_dengesi vt
  ∧ sira vt' = sira vt.
Proof.
  intros Ha vt vt'.
  assert (E : vt' = delete_arac a (delete_bakim_arac a (delete_yakit_arac a vt))).
  { unfold vt'. by rewrite (arac_sil_sonuc _ _ _ Ha). }
  assert (Hy : (hacim_toplami (yakit_kayitlari vt') + hacim_toplami (arac_kayitlari a vt))%Qc
               = hacim_toplami (yakit_kayitlari vt)).
  { rewrite E. simpl. unfold arac_kayitlari.
    rewrite (hacim_toplami_ayir (λ r, y_arac_id r = a) (yakit_kayitlari vt)).
    ring. }
  split; [by rewrite E|]. split; [by rewrite E|]. split; [by rewrite E|].
  split; [exact Hy|]. split; [|by rewrite E].
  unfold depo_dengesi.
  assert (Hs : depo_seviyesi vt' = depo_seviyesi vt) by (by rewrite E).
  assert (Hd : dolum_toplami vt' = dolum_toplami vt) by (by rewrite E).
  rewrite Hs, Hd. destruct (depo_seviyesi vt) as [x|]; [|done]. simpl. f_equal.
  rewrite <- Hy. ring.
Qed.

Lemma arac_sil_iade_etmez_tanik :
  let vt := calisma (conn Senaryo.iki_kayit) in
  let vt' :=
    calisma (conn (calistir (arac_sil (Some "34ABC01") true)
                     Senaryo.iki_kayit)) in
  depo_seviyesi vt = Some (Z2Qc 38)
  ∧ depo_seviyesi vt' = Some (Z2Qc 38)
  ∧ yakit_kayitlari vt' = []
  ∧ depo_dengesi vt = Some 0%Qc
  ∧ depo_dengesi vt' = Some (- Z2Qc 62)%Qc.
Proof.
  intros vt vt'.
  assert (Ha : select_arac_id "34ABC01" (calisma (conn Senaryo.iki_kayit)) = Some 1)
    by done.
  destruct (arac_sil_iade_etmez (H:=Ornek.kutuphane) _ _ Senaryo.iki_kayit Ha)
    as (_ & Hs & _ & _ & Hd & _).
  fold vt vt' in Hs, Hd.
  assert (Hvt : depo_seviyesi vt = Some (Z2Qc 38))
    by (apply (bool_decide_unpack _); by vm_compute).
  split; [exact Hvt|]. split; [by rewrite Hs|]. split; [by vm_compute|].
  split; [apply (bool_decide_unpack _); by vm_compute|].
  rewrite Hd. apply (bool_decide_unpack _). by vm_compute.
Defined.

(** ** Vehicles: adding, deleting, adding again *)





(** ** The fuel list *)

Lemma string_compare_gecisli (s1 s2 s3 : string) :
  String.compare s1 s2 ≠ Gt → String.compare s2 s3 ≠ Gt → String.compare s1 s3 ≠ Gt.
Proof.
  revert s2 s3. induction s1 as [|c1 s1 IH]; intros [|c2 s2] [|c3 s3]; simpl; try done.
  change (Ascii.compare c1 c2) with (N.compare (N_of_ascii c1) (N_of_ascii c2)).
  change (Ascii.compare c2 c3) with (N.compare (N_of_ascii c2) (N_of_ascii c3)).
  change (Ascii.compare c1 c3) with (N.compare (N_of_ascii c1) (N_of_ascii c3)).
  destruct (N.compare_spec (N_of_ascii c1) (N_of_ascii c2)) as [E12|E12|E12];
    destruct (N.compare_spec (N_of_ascii c2) (N_of_ascii c3)) as [E23|E23|E23];
    try done; intros H1 H2;
    destruct (N.compare_spec (N_of_ascii c1) (N_of_ascii c3)) as [E13|E13|E13];
    try done; try lia.
  by apply (IH s2).
Qed.

Lemma string_leb_gecisli (s1 s2 s3 : string) :
  String.leb s1 s2 = true → String.leb s2 s3 = true → String.leb s1 s3 = true.
Proof.
  unfold String.leb. intros H1 H2.
  assert (H3 := string_compare_gecisli s1 s2 s3).
  destruct (String.compare s1 s2), (String.compare s2 s3), (String.compare s1 s3);
    try done; exfalso; by apply H3.
Qed.

Lemma tarih_azalan_gecisli : Transitive tarih_azalan.
Proof.
  intros x y z Hxy Hyz. unfold tarih_azalan in *.
  apply Is_true_true. apply Is_true_true in Hxy, Hyz.
  by apply (string_leb_gecisli _ (ys_tarih y)).
Qed.

Lemma tarih_azalan_tam : Total tarih_azalan.
Proof.
  intros x y. unfold tarih_azalan.
  destruct (String.leb_total (ys_tarih y) (ys_tarih x)) as [E|E];
    [left|right]; by apply Is_true_true.
Qed.

Lemma yakit_birlesim_eleman (vt : VT) (s : YakitSatiri) :
  s ∈ yakit_birlesim vt
  ↔ ∃ a r, a ∈ araclar vt ∧ r ∈ yakit_kayitlari vt
           ∧ arac_id a = y_arac_id r ∧ s = yakit_satiri a r.
Proof.
  unfold yakit_birlesim. rewrite list_elem_of_bind. split.
  - intros (r & (a & -> & [Ha Hin]%list_elem_of_filter)%list_elem_of_fmap & Hr).
    by exists a, r.
  - intros (a & r & Ha & Hr & E & ->). exists r. split; [|done].
    apply list_elem_of_fmap. exists a. split; [done|]. by apply list_elem_of_filter.
Qed.

Lemma tek_eslesme {A} (f : A → Z) (x : Z) (l : list A) :
  NoDup (f <$> l) → (length (filter (λ a, f a = x) l) ≤ 1)%nat.
Proof.
  induction l as [|a l IH]; intros Hn; [simpl; lia|].
  rewrite fmap_cons in Hn. apply NoDup_cons in Hn as [Ha Hl].
  rewrite filter_cons. case_decide as E; [|by apply IH].
  assert (Hbos : filter (λ a, f a = x) l = []).
  { clear IH Hl. induction l as [|b l IH]; [done|].
    rewrite fmap_cons in Ha. apply not_elem_of_cons in Ha as [Hab Hal].
    rewrite filter_cons, decide_False by congruence. by apply IH. }
  rewrite Hbos. simpl. lia.
Qed.

Lemma yakit_birlesim_uzunluk (vt : VT) :
  NoDup (arac_id <$> araclar vt) →
  (length (yakit_birlesim vt) ≤ length (yakit_kayitlari vt))%nat.
Proof.
  intros Hn. unfold yakit_birlesim.
  induction (yakit_kayitlari vt) as [|r l IH]; [done|].
  rewrite bind_cons, length_app, length_fmap. simpl.
  assert (Hr := tek_eslesme arac_id (y_arac_id r) (araclar vt) Hn). lia.
Qed.


(** X9.  The rows [yakit_kayitlarini_yukle] shows: never more than 500; in
    descending order of the timestamp text, character by character; each one
    the joined row of a stored fuel entry and a stored vehicle with the
    entry's id, so an entry whose vehicle is not stored is never shown.  A
    stored entry of a stored vehicle is shown unless the list is full and
    every shown row has a timestamp text at least as large.  With unique
    vehicle ids and at most 500 entries nothing is cut off. *)
Theorem yakit_listesi (vt : VT) :
  let liste := yakit_kayitlarini_yukle vt in
  (length liste ≤ 500)%nat
  ∧ StronglySorted tarih_azalan liste
  ∧ (∀ s, s ∈ liste →
          ∃ a r, a ∈ araclar vt ∧ r ∈ yakit_kayitlari vt
                 ∧ arac_id a = y_arac_id r ∧ s = yakit_satiri a r)
  ∧ (∀ a r, a ∈ araclar vt → r ∈ yakit_kayitlari vt → arac_id a = y_arac_id r →
            yakit_satiri a r ∈ liste
            ∨ (length liste = 500%nat
               ∧ ∀ s, s ∈ liste → tarih_azalan s (yakit_satiri a r)))
  ∧ (NoDup (arac_id <$> araclar vt) →
     (length (yakit_kayitlari vt) ≤ 500)%nat →
     liste ≡ₚ yakit_birlesim vt).
Proof.
  intros liste. unfold yakit_kayitlarini_yukle in liste.
  set (sirali := merge_sort tarih_azalan (yakit_birlesim vt)) in *.
  assert (Hs : StronglySorted tarih_azalan sirali)
    by (apply StronglySorted_merge_sort;
        [apply tarih_azalan_gecisli|apply tarih_azalan_tam]).
  assert (Hp : sirali ≡ₚ yakit_birlesim vt) by apply merge_sort_Permutation.
  assert (Hb : sirali = liste ++ drop 500 sirali) by (symmetry; apply take_drop).
  split; [|split; [|split; [|split]]].
  - unfold liste. rewrite length_take. lia.
  - rewrite Hb in Hs. by apply StronglySorted_app_1_l in Hs.
  - intros s Hin. apply yakit_birlesim_eleman. rewrite <- Hp, Hb.
    apply elem_of_app. by left.
  - intros a r Ha Hr E.
    assert (Hin : yakit_satiri a r ∈ sirali).
    { rewrite Hp. apply yakit_birlesim_eleman. by exists a, r. }
    rewrite Hb in Hin. apply elem_of_app in Hin as [Hin|Hin]; [by left|right].
    split.
    + unfold liste. rewrite length_take.
      destruct (decide (length sirali ≤ 500)%nat) as [Hle|Hgt]; [|lia].
      rewrite drop_ge in Hin by done. by apply elem_of_nil in Hin.
    + intros s Hsin. rewrite Hb in Hs.
      by apply (StronglySorted_app_1_elem_of _ _ _ _ _ Hs).
  - intros Hn Hlen. unfold liste. rewrite take_ge; [done|].
    rewrite Hp. pose proof (yakit_birlesim_uzunluk vt Hn). lia.
Qed.

Lemma yakit_listesi_tanik :
  Senaryo2.ikinci_satir ∈ yakit_kayitlarini_yukle (calisma (conn Senaryo.iki_kayit))
  ∧ ys_tarih <$> yakit_kayitlarini_yukle (calisma (conn Senaryo.iki_ay))
    = ["20-02-2023 10:00"; "20-01-2023 10:00"; "01-02-2023 10:00";
       "01-01-2023 10:00"].
Proof.
  split; [|by vm_compute].
  destruct (yakit_listesi (calisma (conn Senaryo.iki_kayit)))
    as (_ & _ & _ & Hgor & _).
  destruct (Hgor (km_yaz 1800 Senaryo2.ilk_arac)
              {| y_kayit_id := 2; y_arac_id := 1; y_km := 1800;
                 yakit_miktari := Z2Qc 32; y_notlar := "";
                 y_tarih := "25-01-2023 10:00" |}) as [Hin|[Hdolu _]].
  - vm_compute. left.
  - apply (bool_decide_unpack _). by vm_compute.
  - done.
  - exact Hin.
  - vm_compute in Hdolu. discriminate Hdolu.
Defined.




(** ** The texts of the vehicle comboboxes *)

Ltac karakter_ac c := destruct c as [[] [] [] [] [] [] [] []].

Lemma ayrac_basta_bicim (s : string) :
  ayrac_basta s = true ↔ ∃ r, s = String "I" (String "D" (String ":" r)).
Proof.
  split; [|by intros [r ->]].
  destruct s as [|c s]; [done|]. karakter_ac c; try done.
  destruct s as [|d s]; [done|]. karakter_ac d; try done.
  destruct s as [|e s]; [done|]. karakter_ac e; try done.
  by exists s.
Qed.

Lemma ayrac_sonrasi_adim (c : ascii) (s : string) :
  ayrac_basta (String c s) = false →
  ayrac_sonrasi (String c s) = ayrac_sonrasi s.
Proof.
  karakter_ac c; try done.
  destruct s as [|d s]; [done|]. karakter_ac d; try done.
  destruct s as [|e s]; [done|]. karakter_ac e; try done.
Qed.

Lemma ayrac_oncesi_adim (c : ascii) (s : string) :
  ayrac_basta (String c s) = false →
  ayrac_oncesi (String c s) = String c (ayrac_oncesi s).
Proof.
  karakter_ac c; try done.
  destruct s as [|d s]; [done|]. karakter_ac d; try done.
  destruct s as [|e s]; [done|]. karakter_ac e; try done.
Qed.

Lemma ek_cons (c : ascii) (s t : string) : String c s +:+ t = String c (s +:+ t).
Proof. done. Qed.

Lemma ek_bos (t : string) : "" +:+ t = t.
Proof. done. Qed.

Lemma ayrac_basta_ilk3 (c d e : ascii) (s s' : string) :
  ayrac_basta (String c (String d (String e s)))
  = ayrac_basta (String c (String d (String e s'))).
Proof.
  karakter_ac c; done.
Qed.

(** A text without "ID:" followed by a text that starts with a blank: the
    first "ID:" is the first one of the second text. *)
Lemma ayrac_sonrasi_yok_ek (p t : string) :
  ayrac_sonrasi p = None →
  ayrac_sonrasi (p +:+ String " " t) = ayrac_sonrasi (String " " t).
Proof.
  induction p as [|c p IH]; intros Hp; [done|].
  assert (Hb : ayrac_basta (String c p) = false).
  { destruct (ayrac_basta (String c p)) eqn:E; [|done].
    apply ayrac_basta_bicim in E as [r E]. by rewrite E in Hp. }
  rewrite (ayrac_sonrasi_adim _ _ Hb) in Hp. rewrite ek_cons.
  rewrite ayrac_sonrasi_adim; [by apply IH|].
  destruct (ayrac_basta (String c (p +:+ String " " t))) eqn:E; [|done].
  exfalso. apply ayrac_basta_bicim in E as [r E].
  destruct p as [|d [|e p]]; try discriminate E.
  rewrite !ek_cons in E.
  rewrite (ayrac_basta_ilk3 c d e p (p +:+ String " " t)) in Hb.
  rewrite E in Hb. done.
Qed.

(** A text with "ID:" followed by any text: the first "ID:" stays the
    first. *)
Lemma ayrac_sonrasi_var_ek (p r t : string) :
  ayrac_sonrasi p = Some r → ayrac_sonrasi (p +:+ t) = Some (r +:+ t).
Proof.
  induction p as [|c p IH]; intros Hp; [done|].
  destruct (ayrac_basta (String c p)) eqn:Hb.
  - apply ayrac_basta_bicim in Hb as [r0 E]. rewrite E in Hp |- *.
    simpl in Hp. injection Hp as ->. done.
  - rewrite (ayrac_sonrasi_adim _ _ Hb) in Hp. rewrite ek_cons.
    rewrite ayrac_sonrasi_adim; [by apply IH|].
    destruct (ayrac_basta (String c (p +:+ t))) eqn:E; [|done].
    exfalso. apply ayrac_basta_bicim in E as [r1 E].
    destruct p as [|d [|e p]]; [discriminate Hp| |].
    + assert (Hd : ayrac_sonrasi (String d "") = None) by (karakter_ac d; done).
      congruence.
    + rewrite !ek_cons in E.
      rewrite (ayrac_basta_ilk3 c d e p (p +:+ t)) in Hb.
      rewrite E in Hb. done.
Qed.

(** The text before the next "ID:" does not depend on what follows it. *)
Lemma ayrac_oncesi_kesilir (x y : string) :
  ayrac_oncesi (x +:+ String "I" (String "D" (String ":" y)))
  = ayrac_oncesi (x +:+ "ID:").
Proof.
  induction x as [|c x IH]; [done|]. rewrite !ek_cons.
  assert (Hb : ayrac_basta (String c (x +:+ String "I" (String "D" (String ":" y))))
               = ayrac_basta (String c (x +:+ "ID:"))).
  { destruct x as [|d [|e x]].
    - rewrite !ek_bos. apply ayrac_basta_ilk3.
    - rewrite !ek_cons, !ek_bos. apply ayrac_basta_ilk3.
    - rewrite !ek_cons. apply ayrac_basta_ilk3. }
  destruct (ayrac_basta (String c (x +:+ "ID:"))) eqn:E.
  - apply ayrac_basta_bicim in Hb as [r1 ->]. apply ayrac_basta_bicim in E as [r2 ->].
    done.
  - rewrite !ayrac_oncesi_adim by done. by rewrite IH.
Qed.

Lemma karakter_yok_ek (c : ascii) (s t : string) :
  karakter_yok c s → karakter_yok c t → karakter_yok c (s +:+ t).
Proof. induction s as [|d s IH]; [done|]. intros [Hd Hs] Ht. split; [done|by apply IH]. Qed.

Lemma ayrac_oncesi_duz (s : string) :
  karakter_yok "I" s → ayrac_oncesi s = s.
Proof.
  induction s as [|c s IH]; [done|]. intros [Hc Hs].
  rewrite ayrac_oncesi_adim; [by rewrite IH|].
  destruct (ayrac_basta (String c s)) eqn:E; [|done].
  apply ayrac_basta_bicim in E as [r E]. by injection E as -> _.
Qed.

Lemma rstrip_parantez_son (s : string) :
  karakter_yok ")" s → rstrip_parantez (s +:+ ")") = s.
Proof.
  induction s as [|c s IH]; [done|]. intros [Hc Hs]. rewrite ek_cons. simpl.
  rewrite (IH Hs), bool_decide_eq_false_2 by done. done.
Qed.

Lemma onluk_karakter (c : ascii) (z : Z) :
  (∀ d, d ∈ ["0"; "1"; "2"; "3"; "4"; "5"; "6"; "7"; "8"; "9"; "-"]%char → d ≠ c) →
  karakter_yok c (onluk z).
Proof.
  intros Hc. unfold onluk.
  assert (Hu : ∀ d, karakter_yok c (NilEmpty.string_of_uint d)).
  { induction d; simpl; try done;
      (split; [|done]); apply Hc; repeat (first [left | right]). }
  destruct (Z.to_int z); simpl; [apply Hu|].
  split; [|apply Hu]. apply Hc. repeat (first [left | right]).
Qed.

Lemma ek_birlesme (s t r : string) : (s +:+ t) +:+ r = s +:+ (t +:+ r).
Proof. induction s as [|c s IH]; [done|]. by rewrite !ek_cons, IH. Qed.

Lemma arac_secenekleri_eleman (vt : VT) (t : string) :
  t ∈ arac_secenekleri vt ↔ ∃ a, a ∈ araclar vt ∧ t = arac_secenegi a.
Proof.
  unfold arac_secenekleri. rewrite list_elem_of_fmap. split.
  - intros (a & -> & Ha). exists a. split; [|done].
    by rewrite merge_sort_Permutation in Ha.
  - intros (a & Ha & ->). exists a. split; [done|].
    by rewrite merge_sort_Permutation.
Qed.

(** X11.  The text a vehicle combobox shows for a stored vehicle whose plate
    does not contain "ID:" is read back as the id of that vehicle by every
    method that takes its vehicle from a combobox, provided [int] reads the
    decimal text of the id as that number.  The comboboxes offer exactly the
    texts of the stored vehicles. *)
Theorem secenek_kimligi_verir `{Kutuphane} (a : Arac) (vt : VT) :
  a ∈ araclar vt →
  ¬ ayrac_iceriyor (plaka a) →
  py_int (onluk (arac_id a)) = Some (arac_id a) →
  arac_secenegi a ∈ arac_secenekleri vt
  ∧ arac_id_degeri (arac_secenegi a) = Some (arac_id a)
  ∧ (∀ u, arac_id_coz (arac_secenegi a) u = (inr (arac_id a), u))
  ∧ (∀ t, t ∈ arac_secenekleri vt → ∃ b, b ∈ araclar vt ∧ t = arac_secenegi b).
Proof.
  intros Ha Hyok Hint.
  assert (Hp : ayrac_sonrasi (plaka a) = None).
  { destruct (ayrac_sonrasi (plaka a)) eqn:E; [|done]. exfalso. apply Hyok.
    unfold ayrac_iceriyor. rewrite E. by eexists. }
  assert (Hrakam : ∀ c, c = "I"%char ∨ c = ")"%char →
            karakter_yok c (onluk (arac_id a))).
  { intros c Hc. apply onluk_karakter. intros d Hd ->.
    destruct Hc as [-> | ->];
      repeat (apply elem_of_cons in Hd as [Hd|Hd]; [discriminate Hd|]);
      by apply elem_of_nil in Hd. }
  assert (Hdeger : arac_id_degeri (arac_secenegi a) = Some (arac_id a)).
  { unfold arac_id_degeri, split_ID_1, arac_secenegi.
    change (" (ID:" +:+ onluk (arac_id a) +:+ ")")
      with (String " " (String "(" (String "I" (String "D" (String ":"
              (onluk (arac_id a) +:+ ")")))))).
    rewrite (ayrac_sonrasi_yok_ek _ _ Hp). simpl.
    rewrite ayrac_oncesi_duz.
    - rewrite rstrip_parantez_son; [done|]. apply Hrakam. by right.
    - apply karakter_yok_ek; [apply Hrakam; by left|done]. }
  split; [apply arac_secenekleri_eleman; by exists a|]. split; [exact Hdeger|].
  split; [intros u; by apply arac_id_coz_tamam|].
  intros t Ht. by apply arac_secenekleri_eleman.
Qed.

Lemma secenek_kimligi_verir_tanik :
  arac_id_degeri (H:=Ornek.kutuphane) "34ABC01 (ID:1)" = Some 1.
Proof.
  assert (Ha : {| arac_id := 1; plaka := "34ABC01"; model := "Transit";
                  mevcut_km := 1000; model_yili := Some 2015;
                  muayene_tarihi := ""; bakim_tarihi := ""; arac_surucusu := "" |}
               ∈ araclar (calisma (conn Senaryo.tek_arac))) by (vm_compute; left).
  refine (proj1 (proj2 (secenek_kimligi_verir (H:=Ornek.kutuphane) _ _ Ha _ _))).
  - intros [r Hr]. discriminate Hr.
  - by vm_compute.
Defined.

(** X12.  For a plate that contains "ID:" the vehicle id the methods read
    from the combobox text is computed from the plate alone: the text after
    the first "ID:" of the plate, up to the next "ID:".  Two vehicles with
    such a plate are read as the same id whatever their own ids are. *)
Theorem ayracli_plaka_kimligi_gizler `{Kutuphane} (a b : Arac) (r : string) :
  ayrac_sonrasi (plaka a) = Some r →
  plaka b = plaka a →
  arac_id_degeri (arac_secenegi a)
  = py_int (rstrip_parantez (ayrac_oncesi (r +:+ " (ID:")))
  ∧ arac_id_degeri (arac_secenegi a) = arac_id_degeri (arac_secenegi b).
Proof.
  assert (Hgenel : ∀ c : Arac, ayrac_sonrasi (plaka c) = Some r →
            arac_id_degeri (arac_secenegi c)
            = py_int (rstrip_parantez (ayrac_oncesi (r +:+ " (ID:")))).
  { intros c Hc. unfold arac_id_degeri, split_ID_1, arac_secenegi.
    rewrite (ayrac_sonrasi_var_ek _ _ _ Hc). simpl.
    change (" (ID:" +:+ onluk (arac_id c) +:+ ")")
      with (" (" +:+ String "I" (String "D" (String ":" (onluk (arac_id c) +:+ ")")))).
    change (r +:+ " (ID:") with (r +:+ " (" +:+ "ID:").
    by rewrite <- !ek_birlesme, ayrac_oncesi_kesilir. }
  intros Ha Hb. split; [by apply Hgenel|].
  rewrite (Hgenel a Ha). symmetry. apply Hgenel. by rewrite Hb.
Qed.

Lemma ayracli_plaka_kimligi_gizler_tanik :
  arac_id_degeri (H:=Ornek.kutuphane) (arac_secenegi (Senaryo2.ayracli_arac 2)) = Some 7
  ∧ arac_id_degeri (H:=Ornek.kutuphane) (arac_secenegi (Senaryo2.ayracli_arac 2))
    = arac_id_degeri (H:=Ornek.kutuphane) (arac_secenegi (Senaryo2.ayracli_arac 5)).
Proof.
  destruct (ayracli_plaka_kimligi_gizler (H:=Ornek.kutuphane)
              (Senaryo2.ayracli_arac 2) (Senaryo2.ayracli_arac 5) "7ID:"
              eq_refl eq_refl) as [H1 H2].
  split; [|exact H2]. rewrite H1. by vm_compute.
Defined.

(** ** Vehicle details *)

Lemma arac_detay_guncelle_sonuc `{Kutuphane} (g : DetayGirisi) (a : Z)
    (my : option Z) (u : Uygulama) :
  detay_girisi_gecerli g a my →
  let vt' :=
    update_arac_detay my (py_strip (dg_muayene_tarihi g))
      (py_strip (dg_bakim_tarihi g)) (py_strip (dg_arac_surucusu g)) a
      (calisma (conn u)) in
  calistir (arac_detay_guncelle g) u
  = {| conn := {| kalici := vt'; calisma := vt' |};
       etiketler := etiketler u;
       bakim_formu := bakim_formu u;
       mesajlar := Basarili :: mesajlar u |}.
Proof.
  intros (Hb & Ha & Hm & Hbt & Hmy) vt'.
  unfold calistir, arac_detay_guncelle, bos.
  rewrite (bool_decide_eq_false_2 _ Hb).
  unfold dene, mbind, prog_bind. rewrite (arac_id_coz_tamam _ _ _ Ha).
  assert (Ht : ∀ s w, (s = "" ∨ strptime s "%d-%m-%Y" = true) →
            (if bool_decide (s = "") then mret () else tarih_kontrol s "%d-%m-%Y") w
            = (inr (), w)).
  { intros s w [-> | Hs]; [done|]. unfold tarih_kontrol. rewrite Hs.
    by case_bool_decide. }
  rewrite (Ht _ _ Hm), (Ht _ _ Hbt).
  destruct Hmy as [[E ->]|(E & [y ->] & Ey)].
  - by rewrite (bool_decide_eq_true_2 _ E).
  - rewrite (bool_decide_eq_false_2 _ E). unfold int. by rewrite Ey.
Qed.



(** ** Maintenance records: adding, deleting, editing *)

Lemma ucret_tamam `{Kutuphane} (x : string) (q : Qc) (u : Uygulama) :
  ucret_degeri x = Some q → ucret x u = (inr q, u).
Proof.
  unfold ucret_degeri, ucret, float. destruct (bos x).
  - by intros [= <-].
  - by intros ->.
Qed.

Lemma bakim_kaydi_ekle_sonuc `{Kutuphane} (g : BakimGirisi) (a : Z) (p c tt : Qc)
    (u : Uygulama) :
  bakim_girisi_gecerli g a p c tt →
  let vt' :=
    insert_bakim a (py_strip (bg_tarih g)) (py_strip (bg_saat g))
      (py_strip (bg_ariza g)) (py_strip (bg_islem g)) p c tt
      (py_strip (bg_notlar g)) (calisma (conn u)) in
  calistir (bakim_kaydi_ekle g) u
  = {| conn := {| kalici := vt'; calisma := vt' |};
       etiketler := etiketler u;
       bakim_formu := bakim_formu u;
       mesajlar := Basarili :: mesajlar u |}.
Proof.
  intros (Hb & Ha & Ht & Hs & Hp & Hc & Htt) vt'.
  unfold calistir, bakim_kaydi_ekle, bos.
  rewrite (bool_decide_eq_false_2 _ Hb).
  unfold dene, mbind, prog_bind. rewrite (arac_id_coz_tamam _ _ _ Ha).
  unfold tarih_kontrol. rewrite Ht, Hs. simpl.
  rewrite (ucret_tamam _ _ _ Hp), (ucret_tamam _ _ _ Hc), (ucret_tamam _ _ _ Htt).
  done.
Qed.



Lemma bakim_kaydi_duzenle_sonuc `{Kutuphane} (arac : string) (a : Z)
    (kayit : BakimSatiri) (d : BakimKaydi) (u : Uygulama) :
  arac_id_degeri arac = Some a →
  select_bakim_detay a (bs_tarih kayit) (bs_ariza kayit) (calisma (conn u)) = Some d →
  let vt' := delete_bakim_kaydi a (bs_tarih kayit) (bs_ariza kayit) (calisma (conn u)) in
  calistir (bakim_kaydi_duzenle arac (Some kayit)) u
  = {| conn := {| kalici := vt'; calisma := vt' |};
       etiketler := etiketler u;
       bakim_formu :=
         {| bakim_tarih_entry := b_tarih d;
            bakim_saat_entry := saat d;
            bakim_ariza_entry := tespit_edilen_ariza d;
            bakim_islem_entry := yapilan_islem d;
            bakim_parca_ucreti_entry := parca_ucreti d;
            bakim_iscilik_ucreti_entry := iscilik_ucreti d;
            bakim_toplam_tutar_entry := toplam_tutar d;
            bakim_notlar_entry := b_notlar d |};
       mesajlar := mesajlar u |}.
Proof.
  intros Ha Hd vt'.
  unfold calistir, bakim_kaydi_duzenle, dene, mbind, prog_bind.
  rewrite (arac_id_coz_tamam _ _ _ Ha). unfold fetch. by rewrite Hd.
Qed.

Lemma arac_id_degeri_bos_degil `{Kutuphane} (arac : string) (a : Z) :
  arac_id_degeri arac = Some a → arac ≠ "".
Proof. by intros E ->. Qed.

Lemma filter_uzunluk_ayir {A} (P : A → Prop) `{∀ x, Decision (P x)} (l : list A) :
  (length (filter P l) + length (filter (λ x, ¬ P x) l) = length l)%nat.
Proof.
  induction l as [|x l IH]; [done|].
  rewrite !filter_cons. destruct (decide (P x)) as [Hx|Hx].
  - rewrite decide_False by (intros Hn; by apply Hn). simpl. lia.
  - rewrite decide_True by done. simpl. lia.
Qed.

(** X15.  Editing a maintenance record and submitting the form as it was
    filled.  [bakim_kaydi_duzenle] puts the first record with the selected
    vehicle, date and fault description into the form and deletes all of
    them; [bakim_kaydi_ekle] on that form stores that one record again, at
    the end of the table and under a new id.  Of [n] records that shared
    vehicle, date and fault description, [n - 1] are lost. *)
Theorem bakim_duzenle_gonder `{Kutuphane} (arac : string) (a : Z)
    (kayit : BakimSatiri) (d : BakimKaydi) (g : BakimGirisi) (u : Uygulama) :
  arac_id_degeri arac = Some a →
  select_bakim_detay a (bs_tarih kayit) (bs_ariza kayit) (calisma (conn u)) = Some d →
  strptime (b_tarih d) "%d-%m-%Y" = true →
  strptime (saat d) "%H:%M" = true →
  formu_tasir arac g (bakim_formu (calistir (bakim_kaydi_duzenle arac (Some kayit)) u)) →
  let vt := calisma (conn u) in
  let eslesen := filter (bakim_eslesir a (bs_tarih kayit) (bs_ariza kayit))
                   (bakim_tamirat vt) in
  let u2 := calistir (bakim_kaydi_ekle g)
              (calistir (bakim_kaydi_duzenle arac (Some kayit)) u) in
  bakim_tamirat (calisma (conn u2))
  = filter (λ r, ¬ bakim_eslesir a (bs_tarih kayit) (bs_ariza kayit) r)
      (bakim_tamirat vt)
    ++ [kimlik_yaz (sira_bakim (sira vt) + 1) d]
  ∧ head eslesen = Some d
  ∧ (length (bakim_tamirat (calisma (conn u2))) + length eslesen
     = length (bakim_tamirat vt) + 1)%nat
  ∧ kalici (conn u2) = calisma (conn u2)
  ∧ mesajlar u2 = Basarili :: mesajlar u.
Proof.
  intros Ha Hd Ht Hs Hf vt eslesen u2.
  assert (E1 := bakim_kaydi_duzenle_sonuc arac a kayit d u Ha Hd). cbv zeta in E1.
  rewrite E1 in Hf. unfold u2. rewrite E1. clear E1.
  destruct Hf as (Hga & Hgt & Hgs & Hgar & Hgi & Hgn & Hp0 & Hc0 & Ht0 & Hp & Hc & Htt).
  simpl in *.
  assert (Hm : bakim_eslesir a (bs_tarih kayit) (bs_ariza kayit) d).
  { unfold select_bakim_detay in Hd. apply head_Some_elem_of in Hd.
    by apply list_elem_of_filter in Hd as [? _]. }
  assert (Hg : bakim_girisi_gecerli g a (parca_ucreti d) (iscilik_ucreti d)
                 (toplam_tutar d)).
  { unfold bakim_girisi_gecerli, ucret_degeri, bos.
    rewrite Hga, Hgt, Hgs, !bool_decide_eq_false_2 by done.
    repeat split; try done. by apply (arac_id_degeri_bos_degil _ a). }
  rewrite (bakim_kaydi_ekle_sonuc g a _ _ _ _ Hg). simpl.
  assert (Ekayit : {| b_kayit_id := sira_bakim (sira (calisma (conn u))) + 1;
                      b_arac_id := a; b_tarih := py_strip (bg_tarih g);
                      saat := py_strip (bg_saat g);
                      tespit_edilen_ariza := py_strip (bg_ariza g);
                      yapilan_islem := py_strip (bg_islem g);
                      parca_ucreti := parca_ucreti d;
                      iscilik_ucreti := iscilik_ucreti d;
                      toplam_tutar := toplam_tutar d;
                      b_notlar := py_strip (bg_notlar g) |}
                   = kimlik_yaz (sira_bakim (sira vt) + 1) d).
  { unfold kimlik_yaz. destruct Hm as (<- & _ & _).
    by rewrite Hgt, Hgs, Hgar, Hgi, Hgn. }
  rewrite Ekayit. split; [done|]. split; [exact Hd|]. split; [|done].
  rewrite length_app. simpl.
  pose proof (filter_uzunluk_ayir (bakim_eslesir a (bs_tarih kayit) (bs_ariza kayit))
                (bakim_tamirat vt)) as Hl.
  fold eslesen in Hl. fold vt. lia.
Qed.

Lemma bakim_duzenle_gonder_tanik :
  let u2 :=
    calistir
      (bakim_kaydi_ekle (H:=Ornek2.kutuphane2)
         (Senaryo2.bakim_girisi "09:00" "Fren" "Ayar" "0" "15" "15"))
      (calistir
         (bakim_kaydi_duzenle (H:=Ornek2.kutuphane2) Senaryo.arac1
            (Some Senaryo2.fren_satiri))
         Senaryo2.uc_bakim_girisi) in
  length (bakim_tamirat (calisma (conn Senaryo2.uc_bakim_girisi))) = 3%nat
  ∧ (λ r, (b_kayit_id r, yapilan_islem r)) <$> bakim_tamirat (calisma (conn u2))
    = [(4, "Ayar")].
Proof.
  intros u2. split; [by vm_compute|].
  assert (Hd : select_bakim_detay 1 (bs_tarih Senaryo2.fren_satiri)
                 (bs_ariza Senaryo2.fren_satiri)
                 (calisma (conn Senaryo2.uc_bakim_girisi))
               = Some Senaryo2.ayar_kaydi)
    by (apply (bool_decide_unpack _); by vm_compute).
  assert (Hf : formu_tasir (H:=Ornek2.kutuphane2) Senaryo.arac1
                 (Senaryo2.bakim_girisi "09:00" "Fren" "Ayar" "0" "15" "15")
                 (bakim_formu (calistir
                    (bakim_kaydi_duzenle (H:=Ornek2.kutuphane2) Senaryo.arac1
                       (Some Senaryo2.fren_satiri))
                    Senaryo2.uc_bakim_girisi))).
  { repeat split; try (by vm_compute);
      apply (bool_decide_unpack _); by vm_compute. }
  destruct (bakim_duzenle_gonder (H:=Ornek2.kutuphane2) Senaryo.arac1 1
              Senaryo2.fren_satiri Senaryo2.ayar_kaydi _ Senaryo2.uc_bakim_girisi
              eq_refl Hd eq_refl eq_refl Hf) as (Hb & _).
  unfold u2. rewrite Hb. by vm_compute.
Defined.



(** ** The data of the consumption graph *)











(** ** The report filter *)





(** ** Loading and saving the detail form *)

Lemma onluk_bos_degil (z : Z) : onluk z ≠ "".
Proof.
  unfold onluk. destruct z as [|p|p]; simpl; [done| |done].
  pose proof (Unsigned.to_uint_nonnil p) as Hp.
  by destruct (Pos.to_uint p).
Qed.

Lemma select_arac_detay_tek (a : Arac) (vt : VT) :
  NoDup (arac_id <$> araclar vt) → a ∈ araclar vt →
  select_arac_detay (arac_id a) vt = Some a.
Proof.
  unfold select_arac_detay. intros Hn Ha.
  induction (araclar vt) as [|r l IH]; [by apply elem_of_nil in Ha|].
  rewrite fmap_cons in Hn. apply NoDup_cons in Hn as [Hr Hl].
  rewrite filter_cons. apply elem_of_cons in Ha as [<-|Ha].
  - by rewrite decide_True by done.
  - rewrite decide_False; [by apply IH|].
    intros E. apply Hr. rewrite E. by apply list_elem_of_fmap_2.
Qed.

Lemma ayni_kimlik_ayni_arac (a r : Arac) (l : list Arac) :
  NoDup (arac_id <$> l) → a ∈ l → r ∈ l → arac_id r = arac_id a → r = a.
Proof.
  induction l as [|x l IH]; intros Hn Ha Hr E; [by apply elem_of_nil in Ha|].
  rewrite fmap_cons in Hn. apply NoDup_cons in Hn as [Hx Hl].
  apply elem_of_cons in Ha as [-> | Ha]; apply elem_of_cons in Hr as [-> | Hr].
  - done.
  - exfalso. apply Hx. rewrite <- E. by apply list_elem_of_fmap_2.
  - exfalso. apply Hx. rewrite E. by apply list_elem_of_fmap_2.
  - by apply IH.
Qed.

(** X19.  Saving the detail form as [arac_detay_getir] loaded it.  For a
    stored vehicle with unique id whose stored texts are stripped and whose
    dates are empty or in the expected format, and with an [int] that reads
    the decimal text of the model year: the update is accepted and reported,
    and the database is left as it was, except that a model year 0 is
    loaded as an empty entry and saved as no model year. *)
Theorem detay_yukle_kaydet `{Kutuphane} (arac : string) (a : Arac) (u : Uygulama) :
  NoDup (arac_id <$> araclar (calisma (conn u))) →
  a ∈ araclar (calisma (conn u)) →
  arac_id_degeri arac = Some (arac_id a) →
  py_strip "" = "" →
  py_strip (muayene_tarihi a) = muayene_tarihi a →
  py_strip (bakim_tarihi a) = bakim_tarihi a →
  py_strip (arac_surucusu a) = arac_surucusu a →
  (∀ y, model_yili a = Some y →
        py_strip (onluk y) = onluk y ∧ py_int (onluk y) = Some y) →
  (muayene_tarihi a = "" ∨ strptime (muayene_tarihi a) "%d-%m-%Y" = true) →
  (bakim_tarihi a = "" ∨ strptime (bakim_tarihi a) "%d-%m-%Y" = true) →
  let vt := calisma (conn u) in
  let u' := calistir (arac_detay_guncelle (detay_formu arac a)) u in
  arac_detay_getir arac vt = Some (detay_formu arac a)
  ∧ mesajlar u' = Basarili :: mesajlar u
  ∧ (model_yili a ≠ Some 0 → calisma (conn u') = vt)
  ∧ (model_yili a = Some 0 →
     araclar (calisma (conn u'))
     = (λ r, if decide (arac_id r = arac_id a)
             then detay_yaz None (muayene_tarihi a) (bakim_tarihi a)
                    (arac_surucusu a) r
             else r) <$> araclar vt).
Proof.
  intros Hn Ha Hid Hbos Hm Hb Hs Hy Hmt Hbt vt u'.
  assert (Hbd : arac ≠ "") by (by apply (arac_id_degeri_bos_degil _ (arac_id a))).
  set (my := match model_yili a with
             | Some y => if decide (y = 0) then None else Some y
             | None => None
             end).
  assert (Hg : detay_girisi_gecerli (detay_formu arac a) (arac_id a) my).
  { unfold detay_girisi_gecerli, detay_formu. simpl.
    rewrite Hm, Hb. repeat (split; [done|]). unfold my.
    destruct (model_yili a) as [y|] eqn:Ey; [|by left].
    destruct (decide (y = 0)) as [->|Hy0]; [by left|right].
    destruct (Hy y eq_refl) as [Hys Hyi]. rewrite Hys.
    split; [apply onluk_bos_degil|]. split; [by eexists|done]. }
  assert (E := arac_detay_guncelle_sonuc _ _ _ u Hg). cbv zeta in E.
  fold u' in E. simpl in E. rewrite Hm, Hb, Hs in E.
  split.
  { unfold arac_detay_getir, bos. rewrite bool_decide_eq_false_2 by done.
    rewrite Hid. simpl. by rewrite select_arac_detay_tek. }
  split; [by rewrite E|]. split.
  - intros H0. rewrite E. simpl. unfold update_arac_detay, araclar_degistir.
    assert (Ear : (λ r, if decide (arac_id r = arac_id a)
                        then detay_yaz my (muayene_tarihi a) (bakim_tarihi a)
                               (arac_surucusu a) r
                        else r) <$> araclar vt = araclar vt).
    { rewrite <- (list_fmap_id (araclar vt)) at 2. apply list_fmap_ext.
      intros i r Hr. simpl. case_decide as Er; [|done].
      assert (r = a) as ->.
      { apply (ayni_kimlik_ayni_arac a r (araclar vt)); try done.
        by eapply list_elem_of_lookup_2. }
      unfold detay_yaz, my. destruct a as [ai ap am ak ay amt abt asr]. simpl in *.
      f_equal. destruct ay as [y|]; [|done].
      destruct (decide (y = 0)) as [->|]; [by destruct H0|done]. }
    fold vt. rewrite Ear. by destruct vt.
  - intros H0. rewrite E. simpl. unfold my. rewrite H0. simpl. done.
Qed.

Lemma detay_yukle_kaydet_tanik :
  let u' := calistir
              (arac_detay_guncelle (H:=Ornek.kutuphane)
                 (detay_formu Senaryo.arac1 Senaryo2.ilk_arac))
              Senaryo.tek_arac in
  arac_detay_getir (H:=Ornek.kutuphane) Senaryo.arac1 (calisma (conn Senaryo.tek_arac))
  = Some {| dg_arac := Senaryo.arac1; dg_model_yili := "2015";
            dg_muayene_tarihi := ""; dg_bakim_tarihi := "";
            dg_arac_surucusu := "" |}
  ∧ calisma (conn u') = calisma (conn Senaryo.tek_arac).
Proof.
  assert (Hn : NoDup (arac_id <$> araclar (calisma (conn Senaryo.tek_arac))))
    by (vm_compute; apply NoDup_singleton).
  assert (Ha : Senaryo2.ilk_arac ∈ araclar (calisma (conn Senaryo.tek_arac)))
    by (vm_compute; left).
  assert (Hy : ∀ y, model_yili Senaryo2.ilk_arac = Some y →
                 Ornek.ornek_strip (onluk y) = onluk y
                 ∧ Ornek.ornek_int (onluk y) = Some y).
  { intros y [= <-]. split; by vm_compute. }
  destruct (detay_yukle_kaydet (H:=Ornek.kutuphane) Senaryo.arac1 Senaryo2.ilk_arac
              Senaryo.tek_arac Hn Ha eq_refl eq_refl eq_refl eq_refl eq_refl Hy
              (or_introl eq_refl) (or_introl eq_refl)) as (Hg & _ & Hayni & _).
  split; [exact Hg|]. apply Hayni. discriminate.
Defined.



(** ** Fuel entries without a vehicle *)



